(** * simple-webserver: the leaderboard service of [src/index.ts]

    The service has two routes over one MongoDB collection:
    [GET /leaderboard] (the ten best scores) and [PUT /leaderboard]
    (submit a score), registered by an async bootstrap function once the
    store connection is up.

    The development follows the source top-down:
    - [JS]         the JavaScript values the handlers see ([body: any]),
                   numbers as IEEE 754 binary64, [typeof], [===], property
                   reads, [>=];
    - [Mongo]      the collection and the three cursor operations the
                   handlers call ([find] with a projection, [sort], [limit])
                   and [insertOne];
    - [Fastify]    how the framework turns what an async handler returns or
                   throws into an HTTP reply, and how the body reads once
                   it is serialised as JSON;
    - [Server]     the two handlers and the bootstrap function;
    - the theorems. *)

From Stdlib Require Import List String ZArith Bool Lia Permutation Sorted.
From Stdlib Require Import Floats.SpecFloat.
Import ListNotations.
Local Open Scope string_scope.
Local Open Scope list_scope.
Local Set Warnings "-register-all".

(* ================================================================== *)
(** ** JavaScript values *)

Module JS.

(** A JavaScript number is an IEEE 754 binary64 value.  [spec_float] is the
    Standard Library's specification type for such values: signed zeros,
    signed infinities, NaN, and finite values [(-1)^s * m * 2^e].  A
    binary64 value is a [spec_float] in canonical form
    ([valid_binary prec emax]); the type does not enforce the canonical
    form, and nothing below depends on it. *)
Definition number : Type := spec_float.

Definition prec : Z := 53.
Definition emax : Z := 1024.

Definition NaN : number := S754_nan.
Definition Infinity : number := S754_infinity false.
Definition NegInfinity : number := S754_infinity true.

(** The number written as the integer literal [z] in the source
    ([400], [200], [2000], [10], ...). *)
Definition num (z : Z) : number := binary_normalize prec emax z 0 false.

Definition is_NaN (x : number) : bool :=
  match x with S754_nan => true | _ => false end.

(** [x >= y] on numbers (ECMAScript relational comparison): false as soon
    as one operand is NaN, otherwise the IEEE order, in which [+0] and [-0]
    are equal. *)
Definition ge (x y : number) : bool :=
  match SFcompare x y with
  | Some Lt => false
  | Some _ => true
  | None => false
  end.

(** Whether a number is finite: neither an infinity nor NaN. *)
Definition is_finite (x : number) : bool :=
  match x with
  | S754_zero _ | S754_finite _ _ _ => true
  | S754_infinity _ | S754_nan => false
  end.

(** The values a handler can be handed as [body: any], and the values the
    handlers build: the JSON data model plus [undefined]. An object is its
    list of own properties in insertion order, keys unique. *)
Inductive value : Type :=
| VUndefined
| VNull
| VBoolean (b : bool)
| VNumber (n : number)
| VString (s : string)
| VObject (props : list (string * value))
| VArray (items : list value).

(** What evaluating an expression or running a handler ends in: a value, or
    a throw.  The source throws an object literal; the engine throws a
    native [TypeError] when a property of [undefined] or [null] is read. *)
Inductive exception : Type :=
| ThrowValue (v : value)
| TypeError (message : string).

Inductive completion (A : Type) : Type :=
| Normal (a : A)
| Throw (e : exception).
Arguments Normal {A} a.
Arguments Throw {A} e.

(** [ToNumber(v)] on the values that convert without parsing text:
    [undefined] is NaN, [null] is [+0], [false] and [true] are 0 and 1.
    Strings and objects are left out. *)
Definition to_number (v : value) : option number :=
  match v with
  | VUndefined => Some NaN
  | VNull => Some (S754_zero false)
  | VBoolean b => Some (if b then num 1 else S754_zero false)
  | VNumber n => Some n
  | VString _ | VObject _ | VArray _ => None
  end.

(** [a >= b] on such values: both sides are converted to numbers. *)
Definition ge_values (a b : value) : option bool :=
  match to_number a, to_number b with
  | Some x, Some y => Some (ge x y)
  | _, _ => None
  end.

(** [typeof v] *)
Definition typeof (v : value) : string :=
  match v with
  | VUndefined => "undefined"
  | VNull => "object"
  | VBoolean _ => "boolean"
  | VNumber _ => "number"
  | VString _ => "string"
  | VObject _ => "object"
  | VArray _ => "object"
  end.

(** [v === null] *)
Definition is_null (v : value) : bool :=
  match v with VNull => true | _ => false end.

Fixpoint lookup (key : string) (props : list (string * value)) : option value :=
  match props with
  | [] => None
  | (k, v) :: rest => if String.eqb k key then Some v else lookup key rest
  end.

(** The message V8 attaches to the [TypeError] of a failed property read. *)
Definition cannot_read (key : string) (target : string) : string :=
  ("Cannot read property '" ++ key ++ "' of " ++ target)%string.

(** [v.key] for the two keys the service reads, [name] and [score]: an own
    property of an object, [undefined] when the object has none and on
    every primitive and array (no prototype defines [name] or [score]), a
    [TypeError] on [undefined] and [null]. *)
Definition get (v : value) (key : string) : completion value :=
  match v with
  | VUndefined => Throw (TypeError (cannot_read key "undefined"))
  | VNull => Throw (TypeError (cannot_read key "null"))
  | VObject props =>
      match lookup key props with
      | Some x => Normal x
      | None => Normal VUndefined
      end
  | _ => Normal VUndefined
  end.

(** [Object.keys(v)] *)
Definition keys (v : value) : list string :=
  match v with
  | VObject props => map fst props
  | _ => []
  end.

End JS.

Import JS.

(* ================================================================== *)
(** ** The document store *)

Module Mongo.

(** [interface LeaderboardEntry { name: string; score: number }] *)
Record LeaderboardEntry : Type := { name : string; score : number }.

(** The identifier the driver gives a document that is inserted without
    one (twelve bytes, read as a natural number). *)
Definition ObjectId : Type := N.

(** A document of the collection [example.leaderboard]: the entry the
    service stored, under the identifier it received. *)
Record Document : Type := { _id : ObjectId; entry : LeaderboardEntry }.

(** The collection, in the store's natural order. *)
Definition collection : Type := list Document.

(** The order in which the store compares two numbers when it sorts: the
    IEEE order, with NaN equal to itself and below every other number. *)
Definition compare (x y : number) : comparison :=
  match x, y with
  | S754_nan, S754_nan => Eq
  | S754_nan, _ => Lt
  | _, S754_nan => Gt
  | _, _ => match SFcompare x y with Some c => c | None => Eq end
  end.

Definition leb (x y : number) : bool :=
  match compare x y with Gt => false | _ => true end.

Definition ltb (x y : number) : bool :=
  match compare x y with Lt => true | _ => false end.

(** [find({}, { projection: { _id: 0 } })]: every document, without its
    identifier. *)
Definition find_without_id (c : collection) : list LeaderboardEntry :=
  map entry c.

(** [a] may stand before [b] in a result sorted by [{ score: -1 }]. *)
Definition score_desc (a b : LeaderboardEntry) : Prop :=
  leb (score b) (score a) = true.

(** [.sort({ score: -1 })]: the store hands back the same documents, by
    score descending.  It promises nothing about the relative order of
    documents with equal scores, so the operation is a relation: [out] is
    one of the orders the store may answer with. *)
Definition sort_score_desc (docs out : list LeaderboardEntry) : Prop :=
  Permutation docs out /\ StronglySorted score_desc out.

(** One such answer, computed: documents with equal scores stay in natural
    order (a stable insertion sort). *)
Fixpoint insert_desc (d : LeaderboardEntry) (l : list LeaderboardEntry)
  : list LeaderboardEntry :=
  match l with
  | [] => [d]
  | x :: rest =>
      if leb (score x) (score d) then d :: x :: rest
      else x :: insert_desc d rest
  end.

Definition sort_desc (docs : list LeaderboardEntry) : list LeaderboardEntry :=
  fold_right insert_desc [] docs.

(** [.limit(n)] *)
Definition limit (n : nat) (docs : list LeaderboardEntry)
  : list LeaderboardEntry :=
  firstn n docs.

(** [.toArray()]: the documents of the cursor as JavaScript objects, each
    with the fields the projection kept. *)
Definition to_object (e : LeaderboardEntry) : value :=
  VObject [("name", VString (name e)); ("score", VNumber (score e))].

Definition toArray (docs : list LeaderboardEntry) : value :=
  VArray (map to_object docs).

(** [insertOne(doc)]: the document joins the collection under the
    identifier [fresh] that the driver generated for it. *)
Definition insertOne (fresh : ObjectId) (doc : LeaderboardEntry)
  (c : collection) : collection :=
  c ++ [{| _id := fresh; entry := doc |}].

End Mongo.

Import Mongo.

(* ================================================================== *)
(** ** The web framework *)

Module Fastify.

(** What goes back to the client: the status line's code and the payload,
    as the client reads it from the JSON body. *)
Record Reply : Type := { statusCode : number; payload : value }.

(** Node's [http.STATUS_CODES], the client and server errors in common
    use; the service itself produces 400 and 500. *)
Definition STATUS_CODES_table : list (Z * string) :=
  [ (400, "Bad Request"); (401, "Unauthorized"); (402, "Payment Required");
    (403, "Forbidden"); (404, "Not Found"); (405, "Method Not Allowed");
    (406, "Not Acceptable"); (408, "Request Timeout"); (409, "Conflict");
    (410, "Gone"); (413, "Payload Too Large");
    (415, "Unsupported Media Type"); (422, "Unprocessable Entity");
    (429, "Too Many Requests"); (500, "Internal Server Error");
    (501, "Not Implemented"); (502, "Bad Gateway");
    (503, "Service Unavailable"); (504, "Gateway Timeout") ]%Z.

Definition STATUS_CODES (code : number) : option string :=
  match find (fun kv => SFeqb (num (fst kv)) code) STATUS_CODES_table with
  | Some kv => Some (snd kv)
  | None => None
  end.

(** [error.statusCode], when the thrown value is an object that has one
    and it is a number. *)
Definition error_statusCode (e : exception) : option number :=
  match e with
  | ThrowValue (VObject props) =>
      match lookup "statusCode" props with
      | Some (VNumber n) => Some n
      | _ => None
      end
  | _ => None
  end.

(** [error.message || ''] *)
Definition error_message (e : exception) : string :=
  match e with
  | ThrowValue (VObject props) =>
      match lookup "message" props with
      | Some (VString m) => m
      | _ => ""
      end
  | ThrowValue _ => ""
  | TypeError m => m
  end.

(** The default error handler: the status is the error's [statusCode] when
    that is at least 400, and 500 otherwise; the payload carries the status,
    its reason phrase and the error's message. *)
Definition handleError (e : exception) : Reply :=
  let status :=
    match error_statusCode e with
    | Some n => if ge n (num 400) then n else num 500
    | None => num 500
    end in
  {| statusCode := status;
     payload :=
       VObject
         (("statusCode", VNumber status)
          :: match STATUS_CODES status with
             | Some phrase => [("error", VString phrase)]
             | None => []
             end
          ++ [("message", VString (error_message e))]) |}.

(** A number as [JSON.stringify] writes it and the client reads it back:
    a finite number is itself, with [-0] written [0]; an infinity or NaN is
    written [null]. *)
Definition json_number (n : number) : value :=
  match n with
  | S754_zero _ => VNumber (S754_zero false)
  | S754_finite _ _ _ => VNumber n
  | S754_infinity _ | S754_nan => VNull
  end.

(** A value as [JSON.stringify] writes it and the client reads it back:
    inside an object a property whose value is [undefined] is left out,
    inside an array [undefined] is written [null]. *)
Fixpoint json (v : value) : value :=
  match v with
  | VNumber n => json_number n
  | VObject props =>
      VObject
        ((fix members (ps : list (string * value)) : list (string * value) :=
            match ps with
            | [] => []
            | (_, VUndefined) :: rest => members rest
            | (k, x) :: rest => (k, json x) :: members rest
            end) props)
  | VArray items =>
      VArray (map (fun x => match x with
                            | VUndefined => VNull
                            | _ => json x
                            end) items)
  | _ => v
  end.

(** An async handler's promise settles: what it resolves with is sent with
    status 200, serialised as JSON; what it rejects with goes through the
    error handler. *)
Definition send (c : completion value) : Reply :=
  match c with
  | Normal v => {| statusCode := num 200; payload := json v |}
  | Throw e => handleError e
  end.

End Fastify.

Import Fastify.

(* ================================================================== *)
(** ** The service *)

Module Server.

(** *** [server.get('/leaderboard', async () => ...)] *)

(** [{ result: board }] *)
Definition result_of (board : value) : value := VObject [("result", board)].

(** The handler, for every answer the store may give to the sort: it
    returns [{ result: board }] and leaves the collection as it found it. *)
Inductive get_leaderboard (leaderboard : collection)
  : completion value * collection -> Prop :=
| get_leaderboard_intro (sorted : list LeaderboardEntry) :
    sort_score_desc (find_without_id leaderboard) sorted ->
    get_leaderboard leaderboard
      (Normal (result_of (toArray (limit 10 sorted))), leaderboard).

(** The handler run against a store that breaks ties by natural order. *)
Definition get_leaderboard_run (leaderboard : collection)
  : completion value * collection :=
  let board :=
    toArray (limit 10 (sort_desc (find_without_id leaderboard))) in
  (Normal (result_of board), leaderboard).

(** *** [server.put('/leaderboard', async ({ body }) => ...)] *)

(** The object literal the handler throws. *)
Definition invalid_body_error : value :=
  VObject [("statusCode", VNumber (num 400));
           ("error", VString "Bad Request");
           ("message", VString "Invalid body")].

(** The object literal the handler returns. *)
Definition posted : value :=
  VObject [("statusCode", VNumber (num 200));
           ("message", VString "Your score has been posted")].

(** The condition of the [if], left to right with the short circuit of
    [||]:
    [body === null || typeof body.name !== 'string'
                   || typeof body.score !== 'number']. *)
Definition invalid_body (body : value) : completion bool :=
  if is_null body then Normal true
  else
    match get body "name" with
    | Throw e => Throw e
    | Normal n =>
        if negb (String.eqb (typeof n) "string") then Normal true
        else
          match get body "score" with
          | Throw e => Throw e
          | Normal s => Normal (negb (String.eqb (typeof s) "number"))
          end
    end.

(** The handler.  [fresh] is the identifier the driver will generate for
    the inserted document.  The two [typeof] tests are the two patterns
    [VString] and [VNumber] (lemma [put_leaderboard_by_condition] relates
    the handler to [invalid_body]); the inserted document is the object
    literal [{ name: body.name, score: body.score }]. *)
Definition put_leaderboard (fresh : ObjectId) (body : value)
  (leaderboard : collection) : completion value * collection :=
  if is_null body then (Throw (ThrowValue invalid_body_error), leaderboard)
  else
    match get body "name" with
    | Throw e => (Throw e, leaderboard)
    | Normal (VString body_name) =>
        match get body "score" with
        | Throw e => (Throw e, leaderboard)
        | Normal (VNumber body_score) =>
            (Normal posted,
             insertOne fresh {| name := body_name; score := body_score |}
               leaderboard)
        | Normal _ => (Throw (ThrowValue invalid_body_error), leaderboard)
        end
    | Normal _ => (Throw (ThrowValue invalid_body_error), leaderboard)
    end.

(** *** The bootstrap function *)

(** What the process does that can be observed from outside, in order. *)
Inductive event : Type :=
| EnvLoaded                                 (* dotenv.config() *)
| ClientCreated                             (* new MongoClient(...) *)
| ServerCreated                             (* fastify() *)
| Connected                                 (* connect() resolved *)
| CollectionBound (db coll : string)        (* db(..).collection(..) *)
| RouteRegistered (method path : string)    (* server.get / server.put *)
| Listen (port : Z)                         (* server.listen(port, cb) *)
| Logged (line : string).                   (* console.log(...) *)

(** How the promise of [connection.connect()] settles, if it does. *)
Inductive settlement : Type := Resolves | Rejects | NeverSettles.

(** How the async function ends. *)
Inductive ending (A : Type) : Type :=
| Done (a : A)
| UnhandledRejection
| Suspended.
Arguments Done {A} a.
Arguments UnhandledRejection {A}.
Arguments Suspended {A}.

(** An async computation: the events it caused, and how it ended. *)
Definition Async (A : Type) : Type := list event * ending A.

Definition ret {A : Type} (a : A) : Async A := ([], Done a).

Definition bind {A B : Type} (m : Async A) (k : A -> Async B) : Async B :=
  match m with
  | (t, Done a) => let (t', r) := k a in (t ++ t', r)
  | (t, UnhandledRejection) => (t, UnhandledRejection)
  | (t, Suspended) => (t, Suspended)
  end.

Notation "m ;; k" := (bind m (fun _ => k))
  (at level 61, right associativity).

Definition emit (e : event) : Async unit := ([e], Done tt).

(** [await connection.connect()] *)
Definition await_connect (s : settlement) : Async unit :=
  match s with
  | Resolves => emit Connected
  | Rejects => ([], UnhandledRejection)
  | NeverSettles => ([], Suspended)
  end.

(** The callback of [server.listen]; [address] is what the framework
    passes as the bound address: a string, or [null] ([None]) when binding
    failed, which the template literal writes [null]. *)
Definition listen_callback (address : option string) : Async unit :=
  let shown := match address with Some a => a | None => "null" end in
  emit (Logged ("[ Online ] Listening on " ++ shown)%string).

(** The body of [(async () => { ... })()]. *)
Definition bootstrap (connect : settlement) (address : option string)
  : Async unit :=
  await_connect connect ;;
  emit (CollectionBound "example" "leaderboard") ;;
  emit (RouteRegistered "GET" "/leaderboard") ;;
  emit (RouteRegistered "PUT" "/leaderboard") ;;
  emit (Listen 2000) ;;
  listen_callback address.

(** The module, top to bottom. *)
Definition main (connect : settlement) (address : option string)
  : Async unit :=
  emit EnvLoaded ;;
  emit ClientCreated ;;
  emit ServerCreated ;;
  bootstrap connect address.

Definition trace {A : Type} (m : Async A) : list event := fst m.

End Server.

Import Server.

(* ================================================================== *)
(** ** Vocabulary of the statements *)

(** The score every number that the store ranks equal to [x] stands for:
    [x] itself, with the sign of zero dropped. *)
Definition same_score (x : number) : number :=
  match x with
  | S754_zero _ => S754_zero false
  | _ => x
  end.

(** The scores of a board, position by position. *)
Definition scores (board : list LeaderboardEntry) : list number :=
  map (fun e => same_score (score e)) board.

(** No two documents have the same score. *)
Definition distinct_scores (docs : list LeaderboardEntry) : Prop :=
  NoDup (scores docs).

(** How a stored score reads in the body of a response: a finite number
    as that number, a zero of either sign as [0], an infinity or NaN as
    [null]. *)
Inductive sent_score : number -> value -> Prop :=
| sent_zero (s : bool) :
    sent_score (S754_zero s) (VNumber (S754_zero false))
| sent_finite (s : bool) (m : positive) (e : Z) :
    sent_score (S754_finite s m e) (VNumber (S754_finite s m e))
| sent_infinity (s : bool) : sent_score (S754_infinity s) VNull
| sent_NaN : sent_score S754_nan VNull.

(** How a stored entry reads in the body of a response: an object with the
    two fields [name] and [score], in this order, and no other. *)
Definition sent_as (e : LeaderboardEntry) (item : value) : Prop :=
  exists sc,
    sent_score (score e) sc
    /\ item = VObject [("name", VString (name e)); ("score", sc)].

(** [result[i].score >= result[i+1].score] for all [i], on the items of a
    body, with JavaScript's [>=]. *)
Definition descending_sent (items : list value) : Prop :=
  forall i vi vj si sj,
    nth_error items i = Some vi -> nth_error items (S i) = Some vj ->
    get vi "score" = Normal si -> get vj "score" = Normal sj ->
    ge_values si sj = Some true.

(** Every document has a finite score. *)
Definition all_finite (docs : list LeaderboardEntry) : Prop :=
  Forall (fun e => is_finite (score e) = true) docs.

(** A body that does not pass the validation of [PUT /leaderboard]: it is
    [null], or reading its [name] gives something that is not a string, or
    reading its [score] gives something that is not a number. *)
Definition fails_validation (body : value) : Prop :=
  body = VNull
  \/ (exists v, get body "name" = Normal v /\ typeof v <> "string")
  \/ (exists v, get body "score" = Normal v /\ typeof v <> "number").

(** The reply to a rejected submission. *)
Definition bad_request : Reply :=
  {| statusCode := num 400; payload := invalid_body_error |}.

(** A document with the given identifier, name and score. *)
Definition doc (id : ObjectId) (n : string) (s : number) : Document :=
  {| _id := id; entry := {| name := n; score := s |} |}.

(* ================================================================== *)
(** ** Sample stores and bodies *)

(** The store after [{name:"Alice", score:50}] and [{name:"Bob", score:90}]
    were submitted. *)
Definition alice_bob : collection :=
  [doc 1 "Alice" (num 50); doc 2 "Bob" (num 90)]%N.

(** The store after [{name:"a", score:1e999}] and [{name:"b", score:15}]
    were submitted: [1e999] is read as Infinity. *)
Definition infinity_store : collection :=
  [doc 1%N "a" Infinity; doc 2%N "b" (num 15)].

(** Two documents with one score and a third below them. *)
Definition tie_inside : collection :=
  [doc 1%N "a" (num 7); doc 2%N "b" (num 7); doc 3%N "c" (num 3)].

(** Fifteen documents with fifteen different scores, among them a negative
    number, an infinity and a NaN. *)
Definition fifteen : collection :=
  [ doc 1 "p01" (num 3); doc 2 "p02" (num 14); doc 3 "p03" NaN;
    doc 4 "p04" (num 1); doc 5 "p05" (num 15); doc 6 "p06" (num (-2));
    doc 7 "p07" Infinity; doc 8 "p08" (num 9); doc 9 "p09" (num 8);
    doc 10 "p10" (num 7); doc 11 "p11" (num 6); doc 12 "p12" (num 5);
    doc 13 "p13" (num 4); doc 14 "p14" (num 11); doc 15 "p15" (num 12) ]%N.

(** Eleven documents with one and the same score. *)
Definition tied : collection :=
  [ doc 1 "a" (num 7); doc 2 "b" (num 7); doc 3 "c" (num 7);
    doc 4 "d" (num 7); doc 5 "e" (num 7); doc 6 "f" (num 7);
    doc 7 "g" (num 7); doc 8 "h" (num 7); doc 9 "i" (num 7);
    doc 10 "j" (num 7); doc 11 "k" (num 7) ]%N.

(** The body [{ name: n, score: s }]. *)
Definition submission (n : string) (s : number) : value :=
  VObject [("name", VString n); ("score", VNumber s)].

(** The body [{name:"X"}], which has no score. *)
Definition no_score : value := VObject [("name", VString "X")].

(** A body with a padded name, a fractional score written [2.5], and two
    fields the service does not know. *)
Definition padded_body : value :=
  VObject [("extra", VBoolean true);
           ("name", VString "  Al  ");
           ("_id", VString "mine");
           ("score", VNumber (S754_finite false 5629499534213120 (-51)))].

(** How many of [docs] the store ranks at or above the score [s], and
    how many strictly above it. *)
Definition at_or_above (s : number) (docs : list LeaderboardEntry) : nat :=
  List.length (filter (fun e => leb s (score e)) docs).

Definition above (s : number) (docs : list LeaderboardEntry) : nat :=
  List.length (filter (fun e => ltb s (score e)) docs).

(** The text of the line the callback of [server.listen] logs. *)
Definition online_line (address : option string) : string :=
  ("[ Online ] Listening on " ++
   match address with Some a => a | None => "null" end)%string.

(** Two more submissions. *)
Definition carol : value := submission "Carol" (num 70).
Definition zed : value := submission "Zed" (num 4).

(* ================================================================== *)
(** ** The order of the store *)

Module OrderFacts.

(** The finite numbers of the sample data are binary64 values in canonical
    form. *)
Example sample_numbers_valid :
  forallb (valid_binary prec emax)
    (S754_finite false 5629499534213120 (-51)
     :: map num [-3; -2; 1; 3; 4; 5; 6; 7; 8; 9; 11; 12; 14; 15; 50; 70;
                 90; 200; 400; 500; 2000]%Z)
  = true.
Proof. reflexivity. Qed.

Ltac fold_compare :=
  repeat match goal with
  | |- context [PosDef.Pos.compare_cont Eq ?a ?b] =>
      change (PosDef.Pos.compare_cont Eq a b) with (Pos.compare a b)
  | |- context [IntDef.Z.compare ?a ?b] =>
      change (IntDef.Z.compare a b) with (Z.compare a b)
  end.

Ltac order_cases :=
  repeat match goal with
  | s : bool |- _ => destruct s
  | |- context [Z.compare ?a ?b] => destruct (Z.compare_spec a b)
  | |- context [Pos.compare ?a ?b] => destruct (Pos.compare_spec a b)
  end.

Lemma compare_antisym (x y : number) :
  Mongo.compare y x = CompOpp (Mongo.compare x y).
Proof.
  destruct x as [s1|s1| |s1 m1 e1], y as [s2|s2| |s2 m2 e2];
    cbn [Mongo.compare SFcompare]; try reflexivity;
    try (destruct s1; try destruct s2; reflexivity);
    try (destruct s2; reflexivity).
  fold_compare.
  rewrite (Z.compare_antisym e1 e2), (Pos.compare_antisym m1 m2).
  destruct s1, s2; try reflexivity;
    destruct (Z.compare e1 e2); cbn; try reflexivity;
    destruct (Pos.compare m1 m2); reflexivity.
Qed.

Lemma compare_refl (x : number) : Mongo.compare x x = Eq.
Proof.
  destruct x as [s|s| |s m e]; cbn [Mongo.compare SFcompare];
    try (destruct s; reflexivity); try reflexivity.
  fold_compare. rewrite Z.compare_refl, Pos.compare_refl.
  destruct s; reflexivity.
Qed.

Lemma leb_total (x y : number) : leb x y = true \/ leb y x = true.
Proof.
  unfold leb. rewrite (compare_antisym x y).
  destruct (Mongo.compare x y); cbn; auto.
Qed.

Lemma leb_refl (x : number) : leb x x = true.
Proof. unfold leb. now rewrite compare_refl. Qed.

Lemma leb_trans (x y z : number) :
  leb x y = true -> leb y z = true -> leb x z = true.
Proof.
  unfold leb.
  destruct x as [s1|s1| |s1 m1 e1], y as [s2|s2| |s2 m2 e2],
           z as [s3|s3| |s3 m3 e3];
    cbn [Mongo.compare SFcompare]; fold_compare;
    try (destruct s1; try destruct s2; try destruct s3; cbn; congruence);
    try (destruct s2; try destruct s3; cbn; congruence);
    try (destruct s3; cbn; congruence); try congruence.
  all: order_cases; cbn; intros; try congruence; try lia.
Qed.

(** Two numbers the store ranks equal are the same number, up to the sign
    of zero. *)
Lemma compare_Eq (x y : number) :
  Mongo.compare x y = Eq -> same_score x = same_score y.
Proof.
  destruct x as [s1|s1| |s1 m1 e1], y as [s2|s2| |s2 m2 e2];
    cbn [Mongo.compare SFcompare same_score]; fold_compare;
    try reflexivity; try (destruct s1; try destruct s2; cbn; congruence);
    try (destruct s2; cbn; congruence).
  order_cases; cbn; intros; subst; congruence.
Qed.

Lemma compare_same_score_l (x y : number) :
  Mongo.compare (same_score x) y = Mongo.compare x y.
Proof. destruct x, y; reflexivity. Qed.

Lemma compare_same_score_r (x y : number) :
  Mongo.compare x (same_score y) = Mongo.compare x y.
Proof. destruct x, y; reflexivity. Qed.

Lemma same_score_Eq (x y : number) :
  same_score x = same_score y -> Mongo.compare x y = Eq.
Proof.
  intros H. rewrite <- compare_same_score_l, <- compare_same_score_r, H.
  apply compare_refl.
Qed.

Lemma same_score_idem (x : number) : same_score (same_score x) = same_score x.
Proof. destruct x; reflexivity. Qed.

Lemma leb_antisym (x y : number) :
  leb x y = true -> leb y x = true -> same_score x = same_score y.
Proof.
  unfold leb. intros H1 H2. apply compare_Eq.
  rewrite (compare_antisym x y) in H2.
  destruct (Mongo.compare x y); cbn in *; congruence.
Qed.

Lemma leb_neq_ltb (x y : number) :
  leb x y = true -> same_score x <> same_score y -> ltb x y = true.
Proof.
  unfold leb, ltb. intros H N.
  destruct (Mongo.compare x y) eqn:E; try congruence.
  elim N. now apply compare_Eq.
Qed.

Lemma SFcompare_compare (x y : number) :
  is_NaN x = false -> is_NaN y = false ->
  SFcompare x y = Some (Mongo.compare x y).
Proof.
  destruct x as [s1|s1| |s1 m1 e1], y as [s2|s2| |s2 m2 e2];
    cbn [Mongo.compare SFcompare is_NaN]; intros; try discriminate;
    reflexivity.
Qed.

(** What the store's order says about JavaScript's [>=]. *)
Lemma leb_ge (x y : number) :
  leb y x = true -> is_NaN y = true \/ ge x y = true.
Proof.
  intros H. destruct (is_NaN y) eqn:Hy; [now left | right].
  destruct (is_NaN x) eqn:Hx.
  - destruct x; try discriminate. destruct y; discriminate.
  - unfold ge. rewrite (SFcompare_compare x y Hx Hy).
    unfold leb in H. rewrite (compare_antisym x y) in H.
    destruct (Mongo.compare x y); cbn in *; congruence.
Qed.

End OrderFacts.

(* ================================================================== *)
(** ** Sorted lists *)

Module SortFacts.
Import OrderFacts.

Section Generic.
Context {A : Type} (R : A -> A -> Prop).

Lemma StronglySorted_firstn (n : nat) (l : list A) :
  StronglySorted R l -> StronglySorted R (firstn n l).
Proof.
  intros H. revert n. induction H as [|a l Hl IH Ha]; intros [|n]; cbn;
    try constructor; auto.
  rewrite Forall_forall in *. intros x Hx. apply Ha.
  rewrite <- (firstn_skipn n l). apply in_or_app. now left.
Qed.

Lemma StronglySorted_app_inv (l1 l2 : list A) :
  StronglySorted R (l1 ++ l2) ->
  forall a b, In a l1 -> In b l2 -> R a b.
Proof.
  induction l1 as [|x l1 IH]; cbn; intros H a b Ha Hb; [easy|].
  apply StronglySorted_inv in H. destruct H as [H Hx].
  destruct Ha as [<-|Ha]; [|now apply IH].
  rewrite Forall_forall in Hx. apply Hx, in_or_app. now right.
Qed.

Lemma StronglySorted_adjacent (l : list A) :
  StronglySorted R l ->
  forall i a b,
    nth_error l i = Some a -> nth_error l (S i) = Some b -> R a b.
Proof.
  induction 1 as [|x l Hl IH Hx]; intros i a b Ha Hb.
  - destruct i; discriminate.
  - destruct i as [|i]; cbn in Ha, Hb.
    + injection Ha as <-. rewrite Forall_forall in Hx. apply Hx.
      destruct l; [discriminate|]. injection Hb as <-. now left.
    + eapply IH; eassumption.
Qed.

Lemma StronglySorted_lt (l : list A) :
  StronglySorted R l ->
  forall i j a b,
    i < j -> nth_error l i = Some a -> nth_error l j = Some b -> R a b.
Proof.
  induction 1 as [|x l Hl IH Hx]; intros i j a b Hij Ha Hb.
  - destruct i; discriminate.
  - destruct j as [|j]; [lia|]. cbn in Hb. destruct i as [|i]; cbn in Ha.
    + injection Ha as <-. rewrite Forall_forall in Hx.
      eapply Hx, nth_error_In. exact Hb.
    + apply (IH i j); [lia | assumption | assumption].
Qed.

(** A list has at most one sorted arrangement when the order cannot hold
    both ways between two different elements of it. *)
Lemma sorted_permutation_unique (l1 l2 : list A) :
  (forall a b, In a l1 -> In b l1 -> R a b -> R b a -> a = b) ->
  StronglySorted R l1 -> StronglySorted R l2 -> Permutation l1 l2 ->
  l1 = l2.
Proof.
  revert l2. induction l1 as [|a t1 IH]; intros l2 Hanti S1 S2 P.
  - now apply Permutation_nil in P.
  - destruct l2 as [|b t2].
    { apply Permutation_sym, Permutation_nil in P. discriminate. }
    apply StronglySorted_inv in S1, S2.
    destruct S1 as [S1 Fa], S2 as [S2 Fb].
    rewrite Forall_forall in Fa, Fb.
    assert (Hab : a = b).
    { assert (Ia : In a (b :: t2))
        by (eapply Permutation_in; [exact P | now left]).
      assert (Ib : In b (a :: t1))
        by (eapply Permutation_in; [apply Permutation_sym; exact P | now left]).
      destruct Ia as [E|Ia]; [now symmetry|].
      destruct Ib as [E|Ib]; [now symmetry|].
      apply Hanti; [now left | now right | now apply Fa | now apply Fb]. }
    subst b. f_equal. apply IH; auto.
    + intros x y Hx Hy. apply Hanti; now right.
    + eapply Permutation_cons_inv; exact P.
Qed.
End Generic.

Lemma StronglySorted_impl {A : Type} (R R' : A -> A -> Prop) (l : list A) :
  (forall a b, R a b -> R' a b) -> StronglySorted R l -> StronglySorted R' l.
Proof.
  intros HR. induction 1 as [|a l Hl IH Ha]; constructor; auto.
  revert Ha. apply Forall_impl. intros b. apply HR.
Qed.

Lemma StronglySorted_map {A B : Type} (f : A -> B) (R : B -> B -> Prop)
  (l : list A) :
  StronglySorted (fun a b => R (f a) (f b)) l -> StronglySorted R (map f l).
Proof.
  induction 1 as [|a l Hl IH Ha]; cbn; constructor; auto.
  rewrite Forall_forall in *. intros y Hy.
  apply in_map_iff in Hy. destruct Hy as (x & <- & Hx). now apply Ha.
Qed.

Lemma Permutation_filter_same {A : Type} (p : A -> bool) (l l' : list A) :
  Permutation l l' -> Permutation (filter p l) (filter p l').
Proof.
  induction 1 as [|x l l' P IH|x y l|l l' l'' P1 IH1 P2 IH2]; cbn.
  - constructor.
  - destruct (p x); [now constructor | assumption].
  - destruct (p x), (p y); try reflexivity. apply perm_swap.
  - now transitivity (filter p l').
Qed.

(** If [f] takes different values on the elements of a list, an element is
    known by its value. *)
Lemma NoDup_map_eq {A B : Type} (f : A -> B) (l : list A) :
  NoDup (map f l) ->
  forall a b, In a l -> In b l -> f a = f b -> a = b.
Proof.
  induction l as [|x l IH]; cbn; intros H a b Ha Hb E; [easy|].
  apply NoDup_cons_iff in H. destruct H as [Hx H].
  destruct Ha as [<-|Ha], Hb as [<-|Hb]; auto.
  - elim Hx. rewrite E. now apply in_map.
  - elim Hx. rewrite <- E. now apply in_map.
Qed.

Lemma NoDup_app_disjoint {A : Type} (l1 l2 : list A) :
  NoDup (l1 ++ l2) -> forall a, In a l1 -> In a l2 -> False.
Proof.
  induction l1 as [|x l1 IH]; cbn; intros H a H1 H2; [easy|].
  apply NoDup_cons_iff in H. destruct H as [Hx H].
  destruct H1 as [<-|H1]; [|now apply (IH H a)].
  apply Hx, in_or_app. now right.
Qed.

(** *** The computed sort is one of the store's answers *)

Lemma insert_desc_Permutation (d : LeaderboardEntry)
  (l : list LeaderboardEntry) :
  Permutation (d :: l) (insert_desc d l).
Proof.
  induction l as [|x l IH]; cbn; [reflexivity|].
  destruct (leb (score x) (score d)); [reflexivity|].
  rewrite perm_swap. now apply perm_skip.
Qed.

Lemma insert_desc_sorted (d : LeaderboardEntry)
  (l : list LeaderboardEntry) :
  StronglySorted score_desc l -> StronglySorted score_desc (insert_desc d l).
Proof.
  induction 1 as [|x l Hl IH Hx]; cbn.
  - repeat constructor.
  - destruct (leb (score x) (score d)) eqn:E.
    + constructor; [now constructor|]. constructor; [exact E|].
      rewrite Forall_forall in *. intros y Hy. unfold score_desc in *.
      eapply leb_trans; [now apply Hx | exact E].
    + constructor; [exact IH|].
      rewrite Forall_forall in *. intros y Hy.
      apply (Permutation_in _
               (Permutation_sym (insert_desc_Permutation d l))) in Hy.
      destruct Hy as [<-|Hy]; [|now apply Hx].
      unfold score_desc. destruct (leb_total (score x) (score d)); congruence.
Qed.

Lemma sort_desc_answer (docs : list LeaderboardEntry) :
  sort_score_desc docs (sort_desc docs).
Proof.
  split; induction docs as [|d l IH]; cbn; try constructor.
  - etransitivity; [apply perm_skip, IH | apply insert_desc_Permutation].
  - now apply insert_desc_sorted.
Qed.

End SortFacts.

(* ================================================================== *)
(** ** GET /leaderboard *)

Module GetFacts.
Import OrderFacts SortFacts.

(** What a run of the handler is made of. *)
Lemma get_leaderboard_inv (leaderboard : collection)
  (out : completion value * collection) :
  get_leaderboard leaderboard out ->
  exists sorted,
    sort_score_desc (find_without_id leaderboard) sorted /\
    out = (Normal (result_of (toArray (limit 10 sorted))), leaderboard).
Proof. intros [sorted H]. now exists sorted. Qed.

Lemma filter_none_below {A : Type} (p : A -> bool) (l : list A) :
  (forall x, In x l -> p x = false) -> filter p l = [].
Proof.
  induction l as [|x l IH]; cbn; intros H; [reflexivity|].
  rewrite (H x (or_introl eq_refl)). apply IH. intros y Hy. apply H.
  now right.
Qed.

(** The handler returns: the computed run is one of its runs. *)
Lemma get_leaderboard_run_answer (leaderboard : collection) :
  get_leaderboard leaderboard (get_leaderboard_run leaderboard).
Proof. apply get_leaderboard_intro, sort_desc_answer. Qed.

Lemma limit_length (n : nat) (l : list LeaderboardEntry) :
  List.length (limit n l) <= n.
Proof. unfold limit. rewrite length_firstn. lia. Qed.

Lemma limit_incl (n : nat) (l : list LeaderboardEntry) : incl (limit n l) l.
Proof.
  unfold limit. intros x Hx. rewrite <- (firstn_skipn n l).
  apply in_or_app. now left.
Qed.

(** *** The body sent *)

(** An entry of the board, serialised. *)
Local Notation "'wire'" :=
  (fun e : LeaderboardEntry =>
     VObject [("name", VString (name e)); ("score", json_number (score e))]).

(** What the client reads when the handler returns a board. *)
Lemma send_board (board : list LeaderboardEntry) :
  send (Normal (result_of (toArray board)))
  = {| statusCode := num 200;
       payload := VObject [("result", VArray (map wire board))] |}.
Proof.
  unfold send, result_of, toArray. cbn [json]. rewrite map_map.
  rewrite (map_ext _ wire); [reflexivity|].
  intros e. destruct e. reflexivity.
Qed.

Lemma json_number_sent (n : number) : sent_score n (json_number n).
Proof. destruct n; constructor. Qed.

Lemma wire_sent_as (board : list LeaderboardEntry) :
  Forall2 sent_as board (map wire board).
Proof.
  induction board as [|e board IH]; cbn; constructor; [|exact IH].
  exists (json_number (score e)). split; [apply json_number_sent|reflexivity].
Qed.

Lemma json_number_same_score (n : number) :
  json_number (same_score n) = json_number n.
Proof. destruct n; reflexivity. Qed.

Lemma json_number_VNumber (n x : number) :
  json_number n = VNumber x -> is_finite n = true /\ x = same_score n.
Proof. destruct n; cbn; intros H; try discriminate; now injection H as <-. Qed.

Lemma json_number_finite (n : number) :
  is_finite n = true -> json_number n = VNumber (same_score n).
Proof. destruct n; cbn; intros H; try discriminate; reflexivity. Qed.

Lemma ge_same_score (x y : number) :
  ge (same_score x) (same_score y) = ge x y.
Proof. destruct x, y; reflexivity. Qed.

Lemma is_finite_not_NaN (n : number) : is_finite n = true -> is_NaN n = false.
Proof. destruct n; cbn; congruence. Qed.

Lemma nth_error_wire (board : list LeaderboardEntry) (i : nat) (v : value) :
  nth_error (map wire board) i = Some v ->
  exists e, nth_error board i = Some e /\ v = wire e.
Proof.
  rewrite nth_error_map. destruct (nth_error board i) as [e|]; cbn;
    [|discriminate].
  intros H. injection H as <-. now exists e.
Qed.

(** On a sorted board, two scores that are sent as numbers are in the
    order of [>=]. *)
Lemma wire_descending (board : list LeaderboardEntry) :
  StronglySorted score_desc board ->
  forall i j vi vj x y,
    i < j ->
    nth_error (map wire board) i = Some vi ->
    nth_error (map wire board) j = Some vj ->
    get vi "score" = Normal (VNumber x) ->
    get vj "score" = Normal (VNumber y) ->
    ge x y = true.
Proof.
  intros S i j vi vj x y Hij Hi Hj Hx Hy.
  apply nth_error_wire in Hi, Hj.
  destruct Hi as (a & Ha & ->), Hj as (b & Hb & ->).
  cbn in Hx, Hy. injection Hx as Hx. injection Hy as Hy.
  apply json_number_VNumber in Hx, Hy.
  destruct Hx as [Fa ->], Hy as [Fb ->]. rewrite ge_same_score.
  pose proof (StronglySorted_lt score_desc board S i j a b Hij Ha Hb) as L.
  destruct (leb_ge _ _ L) as [N|G]; [|exact G].
  rewrite (is_finite_not_NaN _ Fb) in N. discriminate.
Qed.

(** What a run of the handler sends. *)
Lemma get_leaderboard_sends (leaderboard : collection)
  (out : completion value * collection) :
  get_leaderboard leaderboard out ->
  exists sorted,
    sort_score_desc (map entry leaderboard) sorted
    /\ out = (Normal (result_of (toArray (limit 10 sorted))), leaderboard)
    /\ send (fst out)
       = {| statusCode := num 200;
            payload :=
              VObject [("result", VArray (map wire (limit 10 sorted)))] |}.
Proof.
  intros H. apply get_leaderboard_inv in H. destruct H as (sorted & A & ->).
  exists sorted. split; [exact A|]. split; [reflexivity|]. apply send_board.
Qed.

(** Documents the store ranks at or above a document it keeps come first
    in every sorted answer. *)
Lemma filter_upward_prefix (p : LeaderboardEntry -> bool)
  (l : list LeaderboardEntry) :
  (forall x y, p y = true -> leb (score y) (score x) = true -> p x = true) ->
  StronglySorted score_desc l ->
  filter p l = firstn (List.length (filter p l)) l.
Proof.
  intros Up. induction 1 as [|x l Hl IH Hx]; [reflexivity|]. cbn.
  destruct (p x) eqn:Px; cbn; [now f_equal|].
  rewrite filter_none_below; [reflexivity|].
  intros y Hy. destruct (p y) eqn:Py; [|reflexivity].
  rewrite Forall_forall in Hx. rewrite (Up x y Py (Hx y Hy)) in Px.
  discriminate.
Qed.

(** Two answers of the store to the same sort keep the same documents in
    their first [n] when, in the first answer, everything after the first
    [n] ranks strictly below everything in them. *)
Lemma sort_score_desc_same_cut (n : nat)
  (docs s1 s2 : list LeaderboardEntry) :
  sort_score_desc docs s1 -> sort_score_desc docs s2 ->
  (forall a b, In a (firstn n s1) -> In b (skipn n s1) ->
     ltb (score b) (score a) = true) ->
  Permutation (firstn n s1) (firstn n s2).
Proof.
  intros [P1 S1] [P2 S2] Strict.
  set (p := fun x : LeaderboardEntry =>
              existsb (fun a => leb (score a) (score x)) (firstn n s1)).
  assert (Up : forall x y,
             p y = true -> leb (score y) (score x) = true -> p x = true).
  { intros x y Py L. unfold p in *. apply existsb_exists in Py.
    destruct Py as (a & Ha & La). apply existsb_exists. exists a.
    split; [exact Ha|]. now apply (leb_trans _ (score y)). }
  assert (F1 : filter p s1 = firstn n s1).
  { rewrite <- (firstn_skipn n s1) at 1. rewrite filter_app.
    rewrite (filter_none_below p (skipn n s1)), app_nil_r.
    - apply forallb_filter_id, forallb_forall. intros x Hx. unfold p.
      apply existsb_exists. exists x. split; [exact Hx | apply leb_refl].
    - intros b Hb. destruct (p b) eqn:Pb; [|reflexivity]. unfold p in Pb.
      apply existsb_exists in Pb. destruct Pb as (a & Ha & La).
      pose proof (Strict a b Ha Hb) as Lt. unfold leb in La.
      unfold ltb in Lt. rewrite (compare_antisym (score b) (score a)) in La.
      destruct (Mongo.compare (score b) (score a)); cbn in *; congruence. }
  assert (P12 : Permutation s1 s2)
    by (etransitivity; [apply Permutation_sym; exact P1 | exact P2]).
  pose proof (Permutation_filter_same p _ _ P12) as PF.
  rewrite F1 in PF. rewrite (filter_upward_prefix p s2 Up S2) in PF.
  assert (E : firstn (List.length (filter p s2)) s2 = firstn n s2).
  { rewrite <- (Permutation_length
                  (Permutation_filter_same p _ _ P12)), F1, length_firstn.
    rewrite (Permutation_length P12).
    destruct (Nat.le_ge_cases n (List.length s2)) as [L|L].
    - now rewrite Nat.min_l.
    - rewrite Nat.min_r by exact L. rewrite !firstn_all2; auto. }
  now rewrite E in PF.
Qed.

(** The scores of two answers of the store to the same sort agree position
    by position. *)
Lemma sort_score_desc_scores (docs l1 l2 : list LeaderboardEntry) :
  sort_score_desc docs l1 -> sort_score_desc docs l2 -> scores l1 = scores l2.
Proof.
  intros [P1 S1] [P2 S2]. unfold scores.
  apply (sorted_permutation_unique (fun x y => leb y x = true)).
  - intros x y Hx Hy Hxy Hyx.
    apply in_map_iff in Hx, Hy.
    destruct Hx as (a & <- & _), Hy as (b & <- & _).
    rewrite <- (same_score_idem (score a)), <- (same_score_idem (score b)).
    now apply leb_antisym.
  - apply StronglySorted_map. revert S1. apply StronglySorted_impl.
    intros a b. unfold score_desc, leb.
    now rewrite compare_same_score_l, compare_same_score_r.
  - apply StronglySorted_map. revert S2. apply StronglySorted_impl.
    intros a b. unfold score_desc, leb.
    now rewrite compare_same_score_l, compare_same_score_r.
  - apply Permutation_map. now rewrite <- P1.
Qed.

(** With no two scores equal the store has one answer only. *)
Lemma sort_score_desc_unique (docs l1 l2 : list LeaderboardEntry) :
  distinct_scores docs ->
  sort_score_desc docs l1 -> sort_score_desc docs l2 -> l1 = l2.
Proof.
  intros D [P1 S1] [P2 S2].
  apply (sorted_permutation_unique score_desc); auto.
  - intros a b Ha Hb Hab Hba.
    apply (NoDup_map_eq (fun e => same_score (score e)) docs D);
      try (eapply Permutation_in;
           [apply Permutation_sym; exact P1 | assumption]).
    now apply leb_antisym.
  - now rewrite <- P1.
Qed.

Lemma scores_limit (n : nat) (l : list LeaderboardEntry) :
  scores (limit n l) = firstn n (scores l).
Proof. unfold scores, limit. now rewrite firstn_map. Qed.

End GetFacts.

Module Get.
Import OrderFacts SortFacts GetFacts.

(** C1 (as amended).  For every state of the store, GET /leaderboard
    returns: the handler has a run, and every run is answered with HTTP 200
    and the body [{ result: items }], where [items] has at most 10
    elements; they are stored entries, each an object with exactly the
    fields [name] and [score], without [_id], a score that is not finite
    being sent as [null]; they are sorted by score descending in the order
    of the store, and for all [i < j] whose scores are both sent as
    numbers, [items[i].score >= items[j].score]. *)
Theorem get_leaderboard_top_ten (leaderboard : collection) :
  get_leaderboard leaderboard (get_leaderboard_run leaderboard) /\
  forall out, get_leaderboard leaderboard out ->
    exists board items,
      send (fst out)
        = {| statusCode := num 200;
             payload := VObject [("result", VArray items)] |}
      /\ List.length items <= 10
      /\ Forall2 sent_as board items
      /\ incl board (map entry leaderboard)
      /\ (forall i j a b,
            i < j -> nth_error board i = Some a ->
            nth_error board j = Some b ->
            leb (score b) (score a) = true)
      /\ (forall i j vi vj x y,
            i < j -> nth_error items i = Some vi ->
            nth_error items j = Some vj ->
            get vi "score" = Normal (VNumber x) ->
            get vj "score" = Normal (VNumber y) ->
            ge x y = true)
      /\ forall v, In v items -> keys v = ["name"; "score"].
Proof.
  split; [apply get_leaderboard_run_answer|].
  intros out H. apply get_leaderboard_sends in H.
  destruct H as (sorted & [P S] & -> & Sent).
  assert (SL : StronglySorted score_desc (limit 10 sorted))
    by (unfold limit; now apply StronglySorted_firstn).
  exists (limit 10 sorted),
    (map (fun e => VObject [("name", VString (name e));
                            ("score", json_number (score e))])
         (limit 10 sorted)).
  split; [exact Sent|].
  split; [rewrite length_map; apply limit_length|].
  split; [apply wire_sent_as|].
  split; [|split; [|split]].
  - intros e He. apply limit_incl in He.
    eapply Permutation_in; [apply Permutation_sym; exact P | exact He].
  - exact (StronglySorted_lt score_desc _ SL).
  - exact (wire_descending _ SL).
  - intros v H. apply in_map_iff in H. now destruct H as (e & <- & _).
Qed.

(** C1, counterexample.  The store is the one two accepted submissions
    build, [{name:"a", score:1e999}] and [{name:"b", score:15}].  The
    computed run sends [a] with the score [null], then [b] with 15;
    [null >= 15] is false; and no run of the handler sends items on which
    [items[i].score >= items[i+1].score] holds for all [i]. *)
Lemma get_leaderboard_infinity_not_ge :
  snd (put_leaderboard 2%N (submission "b" (num 15))
         (snd (put_leaderboard 1%N (submission "a" Infinity) [])))
  = infinity_store
  /\ payload (send (fst (get_leaderboard_run infinity_store)))
     = VObject [("result",
                 VArray [ VObject [("name", VString "a"); ("score", VNull)];
                          VObject [("name", VString "b");
                                   ("score", VNumber (num 15))] ])]
  /\ ge_values VNull (VNumber (num 15)) = Some false
  /\ forall out items,
       get_leaderboard infinity_store out ->
       payload (send (fst out)) = VObject [("result", VArray items)] ->
       ~ descending_sent items.
Proof.
  split; [reflexivity|]. split; [reflexivity|]. split; [reflexivity|].
  intros out items H E D. apply get_leaderboard_sends in H.
  destruct H as (sorted & [P S] & _ & Sent). rewrite Sent in E.
  cbn [payload] in E. injection E as E. subst items.
  cbn in P. apply Permutation_length_2_inv in P.
  destruct P as [-> | ->].
  - specialize (D 0 _ _ _ _ eq_refl eq_refl eq_refl eq_refl). discriminate.
  - apply StronglySorted_inv in S. destruct S as [_ F].
    apply Forall_inv in F. discriminate.
Qed.

(** C5.  When the store holds 15 entries with pairwise distinct scores,
    every run of GET /leaderboard sends exactly 10 items, and they are the
    10 highest entries: the items are the entries of a board, the board
    and the 5 entries left out make up the stored entries, and every entry
    left out has a score strictly below the score of every entry on the
    board. *)
Theorem get_leaderboard_fifteen (leaderboard : collection)
  (out : completion value * collection) :
  List.length leaderboard = 15 ->
  distinct_scores (map entry leaderboard) ->
  get_leaderboard leaderboard out ->
  exists board rest items,
    send (fst out)
      = {| statusCode := num 200;
           payload := VObject [("result", VArray items)] |}
    /\ List.length items = 10
    /\ Forall2 sent_as board items
    /\ List.length rest = 5
    /\ Permutation (map entry leaderboard) (board ++ rest)
    /\ forall a b, In a board -> In b rest ->
         ltb (score b) (score a) = true.
Proof.
  intros L D H. apply get_leaderboard_sends in H.
  destruct H as (sorted & [P S] & -> & Sent).
  assert (Ls : List.length sorted = 15)
    by (now rewrite <- (Permutation_length P), length_map).
  exists (limit 10 sorted), (skipn 10 sorted),
    (map (fun e => VObject [("name", VString (name e));
                            ("score", json_number (score e))])
         (limit 10 sorted)).
  split; [exact Sent|]. unfold limit.
  split; [rewrite length_map, length_firstn, Ls; reflexivity|].
  split; [apply wire_sent_as|].
  split; [rewrite length_skipn, Ls; reflexivity|].
  split; [now rewrite firstn_skipn|].
  intros a b Ha Hb.
  rewrite <- (firstn_skipn 10 sorted) in S.
  apply leb_neq_ltb.
  - exact (StronglySorted_app_inv score_desc _ _ S a b Ha Hb).
  - intros E. unfold distinct_scores in D.
    apply (Permutation_NoDup (Permutation_map _ P)) in D.
    fold (scores sorted) in D.
    rewrite <- (firstn_skipn 10 sorted) in D. unfold scores in D.
    rewrite map_app in D.
    apply (NoDup_app_disjoint _ _ D (same_score (score a))).
    + now apply (in_map (fun e => same_score (score e))).
    + rewrite <- E. now apply (in_map (fun e => same_score (score e))).
Qed.

(** C5, at the store [fifteen]. *)
Lemma get_leaderboard_fifteen_witness :
  exists board rest items,
    send (fst (get_leaderboard_run fifteen))
      = {| statusCode := num 200;
           payload := VObject [("result", VArray items)] |}
    /\ List.length items = 10
    /\ Forall2 sent_as board items
    /\ List.length rest = 5
    /\ Permutation (map entry fifteen) (board ++ rest)
    /\ forall a b, In a board -> In b rest ->
         ltb (score b) (score a) = true.
Proof.
  apply (get_leaderboard_fifteen fifteen (get_leaderboard_run fifteen)).
  - reflexivity.
  - unfold distinct_scores. cbn.
    repeat (constructor; [cbn; intuition discriminate|]). constructor.
  - apply get_leaderboard_run_answer.
Defined.

(** What is sent for [fifteen]: the score Infinity reads [null]. *)
Example get_leaderboard_fifteen_sent :
  payload (send (fst (get_leaderboard_run fifteen)))
  = VObject [("result", VArray
      [ VObject [("name", VString "p07"); ("score", VNull)];
        VObject [("name", VString "p05"); ("score", VNumber (num 15))];
        VObject [("name", VString "p02"); ("score", VNumber (num 14))];
        VObject [("name", VString "p15"); ("score", VNumber (num 12))];
        VObject [("name", VString "p14"); ("score", VNumber (num 11))];
        VObject [("name", VString "p08"); ("score", VNumber (num 9))];
        VObject [("name", VString "p09"); ("score", VNumber (num 8))];
        VObject [("name", VString "p10"); ("score", VNumber (num 7))];
        VObject [("name", VString "p11"); ("score", VNumber (num 6))];
        VObject [("name", VString "p12"); ("score", VNumber (num 5))] ])].
Proof. reflexivity. Qed.

(** The board computed for [fifteen]: Infinity first, then 15 down to 5;
    the scores 4, 3, 1, -2 and NaN are left out. *)
Example get_leaderboard_fifteen_board :
  fst (get_leaderboard_run fifteen)
  = Normal (result_of (toArray
      [ {| name := "p07"; score := Infinity |};
        {| name := "p05"; score := num 15 |};
        {| name := "p02"; score := num 14 |};
        {| name := "p15"; score := num 12 |};
        {| name := "p14"; score := num 11 |};
        {| name := "p08"; score := num 9 |};
        {| name := "p09"; score := num 8 |};
        {| name := "p10"; score := num 7 |};
        {| name := "p11"; score := num 6 |};
        {| name := "p12"; score := num 5 |} ])).
Proof. reflexivity. Qed.

(** The scenarios of the empty collection and of Alice and Bob. *)
Example get_leaderboard_empty :
  get_leaderboard_run [] = (Normal (result_of (VArray [])), []).
Proof. reflexivity. Qed.

Example get_leaderboard_alice_bob :
  fst (get_leaderboard_run alice_bob)
  = Normal (result_of (toArray [ {| name := "Bob"; score := num 90 |};
                                 {| name := "Alice"; score := num 50 |} ])).
Proof. reflexivity. Qed.

(** C7.  GET /leaderboard is read-only: every run leaves the collection as
    it was. *)
Theorem get_leaderboard_read_only (leaderboard : collection)
  (out : completion value * collection) :
  get_leaderboard leaderboard out -> snd out = leaderboard.
Proof.
  intros H. apply get_leaderboard_inv in H.
  now destruct H as (sorted & _ & ->).
Qed.

(** C7, at the store [alice_bob]. *)
Lemma get_leaderboard_read_only_witness :
  get_leaderboard alice_bob (get_leaderboard_run alice_bob)
  /\ snd (get_leaderboard_run alice_bob) = alice_bob.
Proof.
  split; [apply get_leaderboard_run_answer|].
  apply (get_leaderboard_read_only alice_bob (get_leaderboard_run alice_bob)).
  apply get_leaderboard_run_answer.
Defined.

(** C8 (as amended).  Two GET requests with no write in between, the
    second run on the collection the first one left.  The collection is
    unchanged.  The two bodies carry the same scores position by position.
    They carry the same entries, in some order, whenever every entry the
    first response leaves out ranks strictly below every entry it
    returns, that is, when no tie lies across the cut at 10.  When no two
    stored scores are equal the two responses are identical. *)
Theorem get_leaderboard_twice (leaderboard : collection)
  (out1 out2 : completion value * collection) :
  get_leaderboard leaderboard out1 ->
  get_leaderboard (snd out1) out2 ->
  snd out2 = leaderboard
  /\ exists board1 rest1 items1 items2,
       send (fst out1)
         = {| statusCode := num 200;
              payload := VObject [("result", VArray items1)] |}
       /\ send (fst out2)
          = {| statusCode := num 200;
               payload := VObject [("result", VArray items2)] |}
       /\ Forall2 sent_as board1 items1
       /\ Permutation (map entry leaderboard) (board1 ++ rest1)
       /\ map (fun v => get v "score") items1
          = map (fun v => get v "score") items2
       /\ ((forall a b, In a board1 -> In b rest1 ->
               ltb (score b) (score a) = true) ->
           Permutation items1 items2)
       /\ (distinct_scores (map entry leaderboard) -> out1 = out2).
Proof.
  intros H1 H2. apply get_leaderboard_sends in H1.
  destruct H1 as (s1 & A1 & -> & Sent1). cbn [snd] in H2.
  apply get_leaderboard_sends in H2. destruct H2 as (s2 & A2 & -> & Sent2).
  split; [reflexivity|].
  exists (limit 10 s1), (skipn 10 s1),
    (map (fun e => VObject [("name", VString (name e));
                            ("score", json_number (score e))])
         (limit 10 s1)),
    (map (fun e => VObject [("name", VString (name e));
                            ("score", json_number (score e))])
         (limit 10 s2)).
  split; [exact Sent1|]. split; [exact Sent2|].
  split; [apply wire_sent_as|].
  split; [unfold limit; rewrite firstn_skipn; apply A1|].
  split; [|split].
  - rewrite !map_map. cbn [get lookup String.eqb Ascii.eqb Bool.eqb].
    pose proof (sort_score_desc_scores _ _ _ A1 A2) as E.
    apply (f_equal (firstn 10)) in E. rewrite <- !scores_limit in E.
    unfold scores in E.
    apply (f_equal (map (fun x => Normal (json_number x)))) in E.
    rewrite !map_map in E.
    assert (M : forall l : list LeaderboardEntry,
               map (fun e => @Normal value
                               (json_number (same_score (score e)))) l
               = map (fun e => Normal (json_number (score e))) l)
      by (intros l; apply map_ext; intros e;
          now rewrite json_number_same_score).
    rewrite !M in E. exact E.
  - intros Strict. apply Permutation_map. unfold limit.
    exact (sort_score_desc_same_cut 10 _ s1 s2 A1 A2 Strict).
  - intros D. now rewrite (sort_score_desc_unique _ _ _ D A1 A2).
Qed.

(** C8, at [tie_inside]: the first run answers [a], [b], [c], the second
    [b], [a], [c]; nothing is left out, and the two bodies hold the same
    three entries in different orders. *)
Lemma get_leaderboard_twice_witness :
  (get_leaderboard tie_inside (get_leaderboard_run tie_inside)
   /\ get_leaderboard tie_inside
        (Normal (result_of (toArray [ {| name := "b"; score := num 7 |};
                                      {| name := "a"; score := num 7 |};
                                      {| name := "c"; score := num 3 |} ])),
         tie_inside)
   /\ payload (send (fst (get_leaderboard_run tie_inside)))
      = VObject [("result", VArray
          [ VObject [("name", VString "a"); ("score", VNumber (num 7))];
            VObject [("name", VString "b"); ("score", VNumber (num 7))];
            VObject [("name", VString "c"); ("score", VNumber (num 3))] ])])
  /\ tie_inside = tie_inside
  /\ exists board1 rest1 items1 items2,
       send (fst (get_leaderboard_run tie_inside))
         = {| statusCode := num 200;
              payload := VObject [("result", VArray items1)] |}
       /\ {| statusCode := num 200;
             payload := VObject [("result", VArray
               [ VObject [("name", VString "b"); ("score", VNumber (num 7))];
                 VObject [("name", VString "a"); ("score", VNumber (num 7))];
                 VObject [("name", VString "c"); ("score", VNumber (num 3))]
               ])] |}
          = {| statusCode := num 200;
               payload := VObject [("result", VArray items2)] |}
       /\ Forall2 sent_as board1 items1
       /\ Permutation (map entry tie_inside) (board1 ++ rest1)
       /\ map (fun v => get v "score") items1
          = map (fun v => get v "score") items2
       /\ ((forall a b, In a board1 -> In b rest1 ->
               ltb (score b) (score a) = true) ->
           Permutation items1 items2)
       /\ (distinct_scores (map entry tie_inside) ->
           get_leaderboard_run tie_inside
           = (Normal (result_of
                        (toArray [ {| name := "b"; score := num 7 |};
                                   {| name := "a"; score := num 7 |};
                                   {| name := "c"; score := num 3 |} ])),
              tie_inside)).
Proof.
  assert (R1 : get_leaderboard tie_inside (get_leaderboard_run tie_inside))
    by apply get_leaderboard_run_answer.
  assert (R2 : get_leaderboard tie_inside
                 (Normal (result_of
                    (toArray (limit 10 [ {| name := "b"; score := num 7 |};
                                         {| name := "a"; score := num 7 |};
                                         {| name := "c"; score := num 3 |} ]))),
                  tie_inside)).
  { apply get_leaderboard_intro. split.
    - cbn. apply perm_swap.
    - repeat (constructor; [|repeat constructor]). constructor. }
  split; [split; [exact R1 | split; [exact R2 | reflexivity]]|].
  exact (get_leaderboard_twice tie_inside _ _ R1 R2).
Defined.

(** C8, counterexample.  On eleven documents with equal scores the store
    may answer the sort in natural order the first time and in the reverse
    order the second time: the first board has the entry [a] and not [k],
    the second has [k] and not [a].  The two requests do not return the
    same set of entries. *)
Lemma get_leaderboard_tied_differ :
  exists out1 out2 board1 board2,
    get_leaderboard tied out1
    /\ get_leaderboard (snd out1) out2
    /\ fst out1 = Normal (result_of (toArray board1))
    /\ fst out2 = Normal (result_of (toArray board2))
    /\ In {| name := "a"; score := num 7 |} board1
    /\ ~ In {| name := "a"; score := num 7 |} board2.
Proof.
  exists (get_leaderboard_run tied),
         (Normal (result_of (toArray
                   (limit 10 (rev (find_without_id tied))))), tied),
         (limit 10 (sort_desc (find_without_id tied))),
         (limit 10 (rev (find_without_id tied))).
  split; [apply get_leaderboard_run_answer|].
  split.
  { cbn [snd get_leaderboard_run]. apply get_leaderboard_intro. split.
    - apply Permutation_rev.
    - cbn. repeat (constructor; [|repeat constructor]). constructor. }
  split; [reflexivity|]. split; [reflexivity|]. split.
  - cbn. now left.
  - cbn. intuition discriminate.
Qed.

End Get.

(* ================================================================== *)
(** ** PUT /leaderboard *)

Module PutFacts.

Lemma typeof_string (v : value) :
  typeof v = "string" <-> exists s, v = VString s.
Proof.
  split; [|intros [s ->]; reflexivity].
  destruct v; cbn; intros H; try discriminate. now exists s.
Qed.

Lemma typeof_number (v : value) :
  typeof v = "number" <-> exists n, v = VNumber n.
Proof.
  split; [|intros [n ->]; reflexivity].
  destruct v; cbn; intros H; try discriminate. now exists n.
Qed.

(** A property read that succeeds was not made on [undefined] or [null],
    so every other property read succeeds as well. *)
Lemma get_Normal (body : value) (k k' : string) (v : value) :
  get body k = Normal v -> exists v', get body k' = Normal v'.
Proof.
  destruct body; cbn; intros H; try discriminate; eauto.
  destruct (lookup k' props); eauto.
Qed.

Lemma get_Normal_not_null (body : value) (k : string) (v : value) :
  get body k = Normal v -> is_null body = false.
Proof. destruct body; cbn; intros H; try discriminate; reflexivity. Qed.

(** The handler and the condition of its [if]: it rethrows what evaluating
    the condition throws, throws the error object when the condition is
    true, and inserts and returns when it is false. *)
Lemma put_leaderboard_by_condition (fresh : ObjectId) (body : value)
  (leaderboard : collection) :
  match invalid_body body with
  | Throw e => put_leaderboard fresh body leaderboard = (Throw e, leaderboard)
  | Normal true =>
      put_leaderboard fresh body leaderboard
      = (Throw (ThrowValue invalid_body_error), leaderboard)
  | Normal false =>
      exists n s,
        get body "name" = Normal (VString n)
        /\ get body "score" = Normal (VNumber s)
        /\ put_leaderboard fresh body leaderboard
           = (Normal posted,
              insertOne fresh {| name := n; score := s |} leaderboard)
  end.
Proof.
  unfold invalid_body, put_leaderboard.
  destruct (is_null body); [reflexivity|].
  destruct (get body "name") as [n|e]; [|reflexivity].
  destruct n; cbn; try reflexivity.
  destruct (get body "score") as [sc|e]; [|reflexivity].
  destruct sc; cbn; try reflexivity. eauto.
Qed.

(** A body that fails validation makes the handler throw the error object
    and leave the collection alone. *)
Lemma put_leaderboard_rejects (fresh : ObjectId) (body : value)
  (leaderboard : collection) :
  fails_validation body ->
  put_leaderboard fresh body leaderboard
  = (Throw (ThrowValue invalid_body_error), leaderboard).
Proof.
  unfold put_leaderboard.
  intros [-> | [(v & Hn & T) | (v & Hs & T)]]; [reflexivity| |].
  - rewrite (get_Normal_not_null body "name" v Hn), Hn.
    destruct v; try reflexivity. now elim T.
  - rewrite (get_Normal_not_null body "score" v Hs).
    destruct (get_Normal body "score" "name" v Hs) as [n ->].
    destruct n; try reflexivity.
    rewrite Hs. destruct v; try reflexivity. now elim T.
Qed.

(** A body with a string [name] and a number [score] is inserted. *)
Lemma put_leaderboard_accepts (fresh : ObjectId) (body : value)
  (leaderboard : collection) (n : string) (s : number) :
  get body "name" = Normal (VString n) ->
  get body "score" = Normal (VNumber s) ->
  put_leaderboard fresh body leaderboard
  = (Normal posted, insertOne fresh {| name := n; score := s |} leaderboard).
Proof.
  unfold put_leaderboard. intros Hn Hs.
  now rewrite (get_Normal_not_null body "name" _ Hn), Hn, Hs.
Qed.

End PutFacts.

Module Put.
Import PutFacts.

(** C2.  For every request body that is null, or whose [name] is not of
    string type, or whose [score] is not of number type, PUT /leaderboard
    responds with HTTP 400 and exactly the payload
    [{ statusCode: 400, error: "Bad Request", message: "Invalid body" }]. *)
Theorem put_leaderboard_bad_request (fresh : ObjectId) (body : value)
  (leaderboard : collection) :
  fails_validation body ->
  send (fst (put_leaderboard fresh body leaderboard))
  = {| statusCode := num 400;
       payload := VObject [("statusCode", VNumber (num 400));
                           ("error", VString "Bad Request");
                           ("message", VString "Invalid body")] |}.
Proof.
  intros H. now rewrite (put_leaderboard_rejects fresh body leaderboard H).
Qed.

(** C2, at the bodies [null], [{name:"X"}], [{name: 5, score: 1}] and
    ["text"]. *)
Lemma put_leaderboard_bad_request_witness :
  (fails_validation VNull
   /\ send (fst (put_leaderboard 3%N VNull alice_bob)) = bad_request)
  /\ (fails_validation no_score
      /\ send (fst (put_leaderboard 3%N no_score alice_bob)) = bad_request)
  /\ send (fst (put_leaderboard 3%N
                  (VObject [("name", VNumber (num 5));
                            ("score", VNumber (num 1))]) [])) = bad_request
  /\ send (fst (put_leaderboard 3%N (VString "text") [])) = bad_request.
Proof.
  assert (H1 : fails_validation VNull) by now left.
  assert (H2 : fails_validation no_score).
  { right; right. exists VUndefined. split; [reflexivity | discriminate]. }
  split; [split; [exact H1|]|split; [split; [exact H2|]|split]].
  - exact (put_leaderboard_bad_request 3%N VNull alice_bob H1).
  - exact (put_leaderboard_bad_request 3%N no_score alice_bob H2).
  - apply put_leaderboard_bad_request. right; left.
    exists (VNumber (num 5)). split; [reflexivity | discriminate].
  - apply put_leaderboard_bad_request. right; left.
    exists VUndefined. split; [reflexivity | discriminate].
Defined.

(** C3.  A request body that fails validation causes no write: the
    collection after the request is the collection before it. *)
Theorem put_leaderboard_rejected_no_write (fresh : ObjectId) (body : value)
  (leaderboard : collection) :
  fails_validation body ->
  snd (put_leaderboard fresh body leaderboard) = leaderboard.
Proof.
  intros H. now rewrite (put_leaderboard_rejects fresh body leaderboard H).
Qed.

(** C3, at the body [{name:"X"}] and a collection of two documents. *)
Lemma put_leaderboard_rejected_no_write_witness :
  fails_validation no_score
  /\ snd (put_leaderboard 3%N no_score alice_bob) = alice_bob.
Proof.
  assert (H : fails_validation no_score).
  { right; right. exists VUndefined. split; [reflexivity | discriminate]. }
  split; [exact H|].
  exact (put_leaderboard_rejected_no_write 3%N no_score alice_bob H).
Defined.

(** C4.  For every request body with a [name] of string type and a [score]
    of number type, PUT /leaderboard adds one document to the collection,
    the new document has exactly the two fields [name] and [score] with the
    values of the body, whatever else the body holds, and the response is
    HTTP 200 with exactly
    [{ statusCode: 200, message: "Your score has been posted" }]. *)
Theorem put_leaderboard_posted (fresh : ObjectId) (body : value)
  (leaderboard : collection) (n : string) (s : number) :
  get body "name" = Normal (VString n) ->
  get body "score" = Normal (VNumber s) ->
  exists d,
    snd (put_leaderboard fresh body leaderboard) = leaderboard ++ [d]
    /\ _id d = fresh
    /\ to_object (entry d)
       = VObject [("name", VString n); ("score", VNumber s)]
    /\ send (fst (put_leaderboard fresh body leaderboard))
       = {| statusCode := num 200;
            payload :=
              VObject [("statusCode", VNumber (num 200));
                       ("message", VString "Your score has been posted")] |}.
Proof.
  intros Hn Hs.
  rewrite (put_leaderboard_accepts fresh body leaderboard n s Hn Hs).
  exists {| _id := fresh; entry := {| name := n; score := s |} |}.
  repeat split.
Qed.

(** C4, at [padded_body]. *)
Lemma put_leaderboard_posted_witness :
  exists d,
    snd (put_leaderboard 3%N padded_body alice_bob) = alice_bob ++ [d]
    /\ _id d = 3%N
    /\ to_object (entry d)
       = VObject [("name", VString "  Al  ");
                  ("score", VNumber (S754_finite false 5629499534213120 (-51)))]
    /\ send (fst (put_leaderboard 3%N padded_body alice_bob))
       = {| statusCode := num 200; payload := posted |}.
Proof.
  apply (put_leaderboard_posted 3%N padded_body alice_bob); reflexivity.
Defined.

(** Alice, then Bob, submitted to the empty collection. *)
Example put_leaderboard_alice_then_bob :
  snd (put_leaderboard 2%N (submission "Bob" (num 90))
         (snd (put_leaderboard 1%N (submission "Alice" (num 50)) [])))
  = alice_bob.
Proof. reflexivity. Qed.

(** C6.  When the body is [undefined] the condition of the [if] reads
    [body.name] and throws a [TypeError]; so does the handler, which writes
    nothing, and the reply is a 500 and not the 400 payload.  For every
    other body, [null] included, the handler either returns its success
    object or throws the 400 error object. *)
Theorem put_leaderboard_undefined (fresh : ObjectId)
  (leaderboard : collection) :
  invalid_body VUndefined
    = Throw (TypeError "Cannot read property 'name' of undefined")
  /\ put_leaderboard fresh VUndefined leaderboard
     = (Throw (TypeError "Cannot read property 'name' of undefined"),
        leaderboard)
  /\ statusCode (send (fst (put_leaderboard fresh VUndefined leaderboard)))
     = num 500
  /\ send (fst (put_leaderboard fresh VUndefined leaderboard)) <> bad_request
  /\ forall body,
       body = VUndefined
       \/ fst (put_leaderboard fresh body leaderboard) = Normal posted
       \/ send (fst (put_leaderboard fresh body leaderboard)) = bad_request.
Proof.
  split; [reflexivity|]. split; [reflexivity|]. split; [reflexivity|].
  split; [discriminate|].
  intros body.
  pose proof (put_leaderboard_by_condition fresh body leaderboard) as H.
  destruct (invalid_body body) as [[|]|e] eqn:E.
  - right; right. now rewrite H.
  - right; left. destruct H as (n & s & _ & _ & ->). reflexivity.
  - left. unfold invalid_body in E.
    destruct body; cbn in E; try discriminate; try reflexivity.
    destruct (lookup "name" props) as [v|]; cbn in E.
    + destruct (negb (typeof v =? "string")); [discriminate|].
      destruct (lookup "score" props); discriminate.
    + discriminate.
Qed.

(** C9.  Validation checks the two types and nothing else: for every body
    whose [name] is a string, whichever, and whose [score] is a number,
    whichever, the condition of the [if] is false, the collection after
    the request is the collection before it followed by one document that
    holds this name and this score under the generated identifier, and the
    handler responds HTTP 200. *)
Theorem put_leaderboard_no_range_check (fresh : ObjectId) (body : value)
  (leaderboard : collection) (n : string) (s : number) :
  get body "name" = Normal (VString n) ->
  get body "score" = Normal (VNumber s) ->
  invalid_body body = Normal false
  /\ snd (put_leaderboard fresh body leaderboard)
     = leaderboard
       ++ [{| _id := fresh; entry := {| name := n; score := s |} |}]
  /\ statusCode (send (fst (put_leaderboard fresh body leaderboard)))
     = num 200.
Proof.
  intros Hn Hs.
  rewrite (put_leaderboard_accepts fresh body leaderboard n s Hn Hs).
  split; [|split; reflexivity].
  unfold invalid_body.
  now rewrite (get_Normal_not_null body "name" _ Hn), Hn, Hs.
Qed.

(** C9, at the empty name with the scores NaN, Infinity, -Infinity and -3,
    submitted to the store of Alice and Bob. *)
Lemma put_leaderboard_no_range_check_witness :
  (invalid_body (submission "" NaN) = Normal false
   /\ snd (put_leaderboard 9%N (submission "" NaN) alice_bob)
      = [doc 1%N "Alice" (num 50); doc 2%N "Bob" (num 90); doc 9%N "" NaN]
   /\ statusCode
        (send (fst (put_leaderboard 9%N (submission "" NaN) alice_bob)))
      = num 200)
  /\ snd (put_leaderboard 9%N (submission "" Infinity) alice_bob)
     = [doc 1%N "Alice" (num 50); doc 2%N "Bob" (num 90);
        doc 9%N "" Infinity]
  /\ snd (put_leaderboard 9%N (submission "" NegInfinity) alice_bob)
     = [doc 1%N "Alice" (num 50); doc 2%N "Bob" (num 90);
        doc 9%N "" NegInfinity]
  /\ snd (put_leaderboard 9%N (submission "" (num (-3))) alice_bob)
     = [doc 1%N "Alice" (num 50); doc 2%N "Bob" (num 90);
        doc 9%N "" (num (-3))].
Proof.
  split; [|split; [|split]].
  - apply (put_leaderboard_no_range_check 9%N (submission "" NaN) alice_bob
             "" NaN); reflexivity.
  - apply (put_leaderboard_no_range_check 9%N (submission "" Infinity)
             alice_bob "" Infinity); reflexivity.
  - apply (put_leaderboard_no_range_check 9%N (submission "" NegInfinity)
             alice_bob "" NegInfinity); reflexivity.
  - apply (put_leaderboard_no_range_check 9%N (submission "" (num (-3)))
             alice_bob "" (num (-3))); reflexivity.
Defined.

End Put.

(* ================================================================== *)
(** ** Bootstrap *)

Module Boot.

(** Takes apart [pre ++ Listen port :: post = t] for a trace [t] that is
    written out. *)
Ltac split_trace :=
  repeat match goal with
  | H : ?pre ++ Listen _ :: _ = _ |- _ =>
      let e := fresh "e" in
      let rest := fresh "pre" in
      let E := fresh "E" in
      destruct pre as [|e rest]; cbn in H;
      [ try discriminate H
      | try discriminate H; injection H as E H; subst e ]
  end.

(** C10.  The server listens only once the store is connected and the
    collection bound, and on port 2000: whenever [Listen port] occurs in
    the trace of the process, [port] is 2000 and the events [Connected]
    and [CollectionBound "example" "leaderboard"] occurred before it; when
    the connection is not established (the promise rejects or never
    settles) no [Listen] occurs; when it is, [Listen 2000] does occur. *)
Theorem bootstrap_listens_after_connect (connect : settlement)
  (address : option string) :
  (forall pre port post,
      trace (main connect address) = pre ++ Listen port :: post ->
      port = 2000%Z
      /\ In Connected pre
      /\ In (CollectionBound "example" "leaderboard") pre)
  /\ (connect <> Resolves ->
      forall port, ~ In (Listen port) (trace (main connect address)))
  /\ In (Listen 2000) (trace (main Resolves address)).
Proof.
  split; [|split].
  - intros pre port post H. symmetry in H. destruct connect; cbn in H.
    + split_trace. injection H as <- _. cbn. intuition.
    + split_trace.
    + split_trace.
  - intros N port. destruct connect; [now elim N| |];
      cbn; intuition discriminate.
  - cbn. intuition.
Qed.

(** The two ends of the bootstrap: the async function runs to its end when
    the connection is established, and stops at the [await] otherwise. *)
Example bootstrap_endings (address : option string) :
  snd (main Resolves address) = Done tt
  /\ snd (main Rejects address) = UnhandledRejection
  /\ snd (main NeverSettles address) = Suspended.
Proof. repeat split. Qed.

End Boot.

(* ================================================================== *)
(** ** More on the board *)

Module RankFacts.
Import OrderFacts SortFacts GetFacts.

Lemma StronglySorted_app_r {A : Type} (R : A -> A -> Prop) (l1 l2 : list A) :
  StronglySorted R (l1 ++ l2) -> StronglySorted R l2.
Proof.
  induction l1 as [|x l1 IH]; cbn; intros H; [exact H|].
  apply StronglySorted_inv in H. now apply IH.
Qed.

Lemma In_firstn_split {A : Type} (n : nat) (x : A) (l : list A) :
  In x (firstn n l) ->
  exists l1 l2, l = l1 ++ x :: l2 /\ List.length l1 < n.
Proof.
  revert l. induction n as [|n IH]; intros [|y l] H; cbn in H; try easy.
  destruct H as [->|H].
  - exists [], l. split; [reflexivity | cbn; lia].
  - destruct (IH l H) as (l1 & l2 & -> & L).
    exists (y :: l1), l2. split; [reflexivity | cbn; lia].
Qed.

Lemma filter_length_Permutation {A : Type} (p : A -> bool) (l l' : list A) :
  Permutation l l' ->
  List.length (filter p l) = List.length (filter p l').
Proof.
  induction 1 as [|x l l' P IH|x y l|l l' l'' P1 IH1 P2 IH2]; cbn.
  - reflexivity.
  - destruct (p x); cbn; now rewrite IH.
  - destruct (p x), (p y); reflexivity.
  - now rewrite IH1.
Qed.

Lemma filter_all {A : Type} (p : A -> bool) (l : list A) :
  (forall x, In x l -> p x = true) -> filter p l = l.
Proof.
  intros H. apply forallb_filter_id, forallb_forall. exact H.
Qed.

Lemma filter_length_In {A : Type} (p : A -> bool) (x : A) (l : list A) :
  In x l -> p x = true -> 1 <= List.length (filter p l).
Proof.
  intros Hx Hp. assert (H : In x (filter p l)) by now apply filter_In.
  destruct (filter p l); [easy | cbn; lia].
Qed.

Lemma ltb_leb_false (x y : number) : ltb x y = true -> leb y x = false.
Proof.
  unfold leb, ltb. rewrite (compare_antisym x y).
  destruct (Mongo.compare x y); cbn; congruence.
Qed.

Lemma ltb_false_leb (x y : number) : ltb x y = false -> leb y x = true.
Proof.
  unfold leb, ltb. rewrite (compare_antisym x y).
  destruct (Mongo.compare x y); cbn; congruence.
Qed.

Lemma ltb_irrefl (x : number) : ltb x x = false.
Proof. unfold ltb. now rewrite compare_refl. Qed.

(** The entries the cursor sees after an insertion. *)
Lemma find_without_id_insertOne (fresh : ObjectId) (e : LeaderboardEntry)
  (c : collection) :
  find_without_id (insertOne fresh e c) = find_without_id c ++ [e].
Proof. unfold find_without_id, insertOne. now rewrite map_app. Qed.

(** A sorted answer, cut after [n] documents: what is kept and what is
    left make up the documents, and nothing left ranks above something
    kept. *)
Lemma sort_score_desc_cut (n : nat) (docs sorted : list LeaderboardEntry) :
  sort_score_desc docs sorted ->
  List.length (limit n sorted) = Nat.min n (List.length docs)
  /\ Permutation docs (limit n sorted ++ skipn n sorted)
  /\ forall a b, In a (limit n sorted) -> In b (skipn n sorted) ->
       leb (score b) (score a) = true.
Proof.
  intros [P S]. unfold limit. split; [|split].
  - now rewrite length_firstn, (Permutation_length P).
  - now rewrite firstn_skipn.
  - intros a b Ha Hb. rewrite <- (firstn_skipn n sorted) in S.
    exact (StronglySorted_app_inv score_desc _ _ S a b Ha Hb).
Qed.

(** With fewer than [n] documents at or above the score of [e], every
    sorted answer has [e] among its first [n]. *)
Lemma ranked_in (n : nat) (docs sorted : list LeaderboardEntry)
  (e : LeaderboardEntry) :
  at_or_above (score e) docs < n ->
  sort_score_desc (docs ++ [e]) sorted ->
  In e (limit n sorted).
Proof.
  intros C A. destruct (sort_score_desc_cut n _ _ A) as (L & P & T).
  assert (He : In e (limit n sorted ++ skipn n sorted)).
  { eapply Permutation_in; [exact P|]. apply in_or_app. right. now left. }
  apply in_app_or in He. destruct He as [He|He]; [exact He|exfalso].
  set (p := fun x : LeaderboardEntry => leb (score e) (score x)).
  assert (Lb : List.length (limit n sorted) = n).
  { unfold limit. rewrite length_firstn.
    destruct (Nat.lt_ge_cases n (List.length sorted)) as [G|G]; [lia|].
    rewrite (skipn_all2 _ G) in He. easy. }
  pose proof (filter_length_Permutation p _ _ P) as F.
  rewrite !filter_app, !length_app in F. cbn [filter] in F.
  unfold p at 2 in F. rewrite leb_refl in F. cbn [List.length] in F.
  rewrite (filter_all p (limit n sorted)) in F
    by (intros x Hx; exact (T x e Hx He)).
  pose proof (filter_length_In p e _ He (leb_refl _)).
  unfold at_or_above in C. fold p in C. lia.
Qed.

(** With at least [n] documents strictly above the score [s], the first
    [n] of every sorted answer are strictly above [s]. *)
Lemma ranked_out (n : nat) (docs sorted : list LeaderboardEntry)
  (s : number) :
  n <= above s docs ->
  sort_score_desc docs sorted ->
  forall x, In x (limit n sorted) -> ltb s (score x) = true.
Proof.
  intros C [P S] x Hx.
  destruct (ltb s (score x)) eqn:E; [reflexivity|exfalso].
  apply ltb_false_leb in E.
  destruct (In_firstn_split n x sorted Hx) as (l1 & l2 & -> & L).
  set (q := fun y : LeaderboardEntry => ltb s (score y)).
  assert (Q2 : filter q (x :: l2) = []).
  { apply filter_none_below. intros y Hy. unfold q.
    destruct (ltb s (score y)) eqn:Ey; [exfalso|reflexivity].
    apply ltb_leb_false in Ey.
    assert (leb (score y) (score x) = true) as Hyx.
    { destruct Hy as [<-|Hy]; [apply leb_refl|].
      apply StronglySorted_app_r, StronglySorted_inv in S.
      destruct S as [_ F]. rewrite Forall_forall in F. now apply F. }
    rewrite (leb_trans _ _ _ Hyx E) in Ey. discriminate. }
  pose proof (filter_length_Permutation q _ _ P) as F.
  rewrite filter_app, Q2, app_nil_r in F.
  pose proof (filter_length_le q l1).
  unfold above in C. fold q in C. lia.
Qed.

End RankFacts.

Module Ranking.
Import OrderFacts SortFacts GetFacts RankFacts PutFacts.

(** X1.  On every store, every run of GET /leaderboard sends exactly
    [min 10 n] items for the [n] stored entries; the items are the entries
    of a board, the board and the entries left out make up the stored
    entries, each as often as it is stored, and no entry left out ranks
    above an entry of the board. *)
Theorem get_leaderboard_best (leaderboard : collection)
  (out : completion value * collection) :
  get_leaderboard leaderboard out ->
  exists board rest items,
    send (fst out)
      = {| statusCode := num 200;
           payload := VObject [("result", VArray items)] |}
    /\ List.length items = Nat.min 10 (List.length leaderboard)
    /\ Forall2 sent_as board items
    /\ Permutation (map entry leaderboard) (board ++ rest)
    /\ forall a b, In a board -> In b rest ->
         leb (score b) (score a) = true.
Proof.
  intros H. apply get_leaderboard_sends in H.
  destruct H as (sorted & A & -> & Sent).
  destruct (sort_score_desc_cut 10 _ _ A) as (L & P & T).
  exists (limit 10 sorted), (skipn 10 sorted),
    (map (fun e => VObject [("name", VString (name e));
                            ("score", json_number (score e))])
         (limit 10 sorted)).
  split; [exact Sent|].
  split; [now rewrite length_map, L, length_map|].
  split; [apply wire_sent_as|]. split; assumption.
Qed.

(** X1, at the store [fifteen]. *)
Lemma get_leaderboard_best_witness :
  exists board rest items,
    send (fst (get_leaderboard_run fifteen))
      = {| statusCode := num 200;
           payload := VObject [("result", VArray items)] |}
    /\ List.length items = Nat.min 10 (List.length fifteen)
    /\ Forall2 sent_as board items
    /\ Permutation (map entry fifteen) (board ++ rest)
    /\ forall a b, In a board -> In b rest ->
         leb (score b) (score a) = true.
Proof.
  apply (get_leaderboard_best fifteen (get_leaderboard_run fifteen)).
  apply get_leaderboard_run_answer.
Defined.

(** X2.  While the store holds at most ten documents nothing is left out:
    the items every run sends are the stored entries, each as often as it
    is stored, in some order. *)
Theorem get_leaderboard_all (leaderboard : collection)
  (out : completion value * collection) :
  List.length leaderboard <= 10 ->
  get_leaderboard leaderboard out ->
  exists board items,
    send (fst out)
      = {| statusCode := num 200;
           payload := VObject [("result", VArray items)] |}
    /\ Forall2 sent_as board items
    /\ Permutation (map entry leaderboard) board.
Proof.
  intros L H. apply get_leaderboard_sends in H.
  destruct H as (sorted & [P S] & -> & Sent).
  exists (limit 10 sorted),
    (map (fun e => VObject [("name", VString (name e));
                            ("score", json_number (score e))])
         (limit 10 sorted)).
  split; [exact Sent|]. split; [apply wire_sent_as|].
  unfold limit. rewrite firstn_all2; [exact P|].
  now rewrite <- (Permutation_length P), length_map.
Qed.

(** X2, at the store of Alice and Bob. *)
Lemma get_leaderboard_all_witness :
  exists board items,
    send (fst (get_leaderboard_run alice_bob))
      = {| statusCode := num 200;
           payload := VObject [("result", VArray items)] |}
    /\ Forall2 sent_as board items
    /\ Permutation (map entry alice_bob) board.
Proof.
  apply (get_leaderboard_all alice_bob (get_leaderboard_run alice_bob)).
  - cbn. lia.
  - apply get_leaderboard_run_answer.
Defined.

(** X3.  When every stored score is finite, every item every run sends has
    a number for its score, and the items are descending for JavaScript's
    [>=]: [result[i].score >= result[i+1].score] for all [i]. *)
Theorem get_leaderboard_ge (leaderboard : collection)
  (out : completion value * collection) :
  all_finite (map entry leaderboard) ->
  get_leaderboard leaderboard out ->
  exists items,
    send (fst out)
      = {| statusCode := num 200;
           payload := VObject [("result", VArray items)] |}
    /\ (forall v, In v items ->
          exists n x, v = VObject [("name", VString n);
                                   ("score", VNumber x)])
    /\ descending_sent items.
Proof.
  intros N H. apply get_leaderboard_sends in H.
  destruct H as (sorted & [P Srt] & -> & Sent).
  assert (F : forall e, In e (limit 10 sorted) ->
                is_finite (score e) = true).
  { intros e He. unfold all_finite in N. rewrite Forall_forall in N.
    apply N. eapply Permutation_in; [apply Permutation_sym; exact P|].
    now apply (limit_incl 10). }
  assert (SL : StronglySorted score_desc (limit 10 sorted))
    by (unfold limit; now apply StronglySorted_firstn).
  eexists. split; [exact Sent|]. split.
  - intros v Hv. apply in_map_iff in Hv. destruct Hv as (e & <- & He).
    exists (name e), (same_score (score e)).
    now rewrite (json_number_finite _ (F e He)).
  - intros i vi vj si sj Hi Hj Hsi Hsj.
    destruct (nth_error_wire _ _ _ Hi) as (a & Ha & ->).
    destruct (nth_error_wire _ _ _ Hj) as (b & Hb & ->).
    pose proof (F a (nth_error_In _ _ Ha)) as Fa.
    pose proof (F b (nth_error_In _ _ Hb)) as Fb.
    cbn in Hsi, Hsj.
    rewrite (json_number_finite _ Fa) in Hsi.
    rewrite (json_number_finite _ Fb) in Hsj.
    injection Hsi as <-. injection Hsj as <-. cbn [ge_values to_number].
    f_equal. rewrite ge_same_score.
    pose proof (StronglySorted_adjacent score_desc _ SL i a b Ha Hb) as L.
    destruct (leb_ge _ _ L) as [Nn|G]; [|exact G].
    rewrite (is_finite_not_NaN _ Fb) in Nn. discriminate.
Qed.

(** X3, at the store of Alice's 50, Bob's 90 and Carol's 70, which is sent
    as 90, 70, 50. *)
Lemma get_leaderboard_ge_witness :
  payload (send (fst (get_leaderboard_run
                        (snd (put_leaderboard 3%N carol alice_bob)))))
  = VObject [("result", VArray
      [ VObject [("name", VString "Bob"); ("score", VNumber (num 90))];
        VObject [("name", VString "Carol"); ("score", VNumber (num 70))];
        VObject [("name", VString "Alice"); ("score", VNumber (num 50))] ])]
  /\ exists items,
       send (fst (get_leaderboard_run
                    (snd (put_leaderboard 3%N carol alice_bob))))
         = {| statusCode := num 200;
              payload := VObject [("result", VArray items)] |}
       /\ (forall v, In v items ->
             exists n x, v = VObject [("name", VString n);
                                      ("score", VNumber x)])
       /\ descending_sent items.
Proof.
  split; [reflexivity|].
  apply (get_leaderboard_ge (snd (put_leaderboard 3%N carol alice_bob))
           (get_leaderboard_run (snd (put_leaderboard 3%N carol alice_bob)))).
  - unfold all_finite. cbn. repeat constructor.
  - apply get_leaderboard_run_answer.
Defined.

(** X4.  A submission that is accepted shows on the next board when fewer
    than ten stored scores rank at or above its score: after the PUT,
    every run of GET sends an item with the name of the body and with its
    score as a response carries it (a finite score as sent, a zero as 0,
    an infinity as [null]). *)
Theorem put_then_get_shows (fresh : ObjectId) (body : value)
  (leaderboard : collection) (n : string) (s : number)
  (out : completion value * collection) :
  get body "name" = Normal (VString n) ->
  get body "score" = Normal (VNumber s) ->
  at_or_above s (map entry leaderboard) < 10 ->
  get_leaderboard (snd (put_leaderboard fresh body leaderboard)) out ->
  exists items sc,
    send (fst out)
      = {| statusCode := num 200;
           payload := VObject [("result", VArray items)] |}
    /\ sent_score s sc
    /\ In (VObject [("name", VString n); ("score", sc)]) items.
Proof.
  intros Hn Hs C H.
  rewrite (put_leaderboard_accepts fresh body leaderboard n s Hn Hs) in H.
  cbn [snd] in H. apply get_leaderboard_sends in H.
  destruct H as (sorted & A & -> & Sent).
  fold (find_without_id (insertOne fresh {| name := n; score := s |}
                           leaderboard)) in A.
  rewrite find_without_id_insertOne in A.
  eexists. exists (json_number s).
  split; [exact Sent|]. split; [apply json_number_sent|].
  apply (in_map (fun e => VObject [("name", VString (name e));
                                   ("score", json_number (score e))])
           _ {| name := n; score := s |}).
  exact (ranked_in 10 _ sorted {| name := n; score := s |} C A).
Qed.

(** X4, at Carol's 70 submitted after Alice's 50 and Bob's 90, and at a
    score of 1e999 submitted to the same store, which shows as [null]. *)
Lemma put_then_get_shows_witness :
  (exists items sc,
     send (fst (get_leaderboard_run
                  (snd (put_leaderboard 3%N carol alice_bob))))
       = {| statusCode := num 200;
            payload := VObject [("result", VArray items)] |}
     /\ sent_score (num 70) sc
     /\ In (VObject [("name", VString "Carol"); ("score", sc)]) items)
  /\ (exists items sc,
        send (fst (get_leaderboard_run
                     (snd (put_leaderboard 3%N (submission "Top" Infinity)
                             alice_bob))))
          = {| statusCode := num 200;
               payload := VObject [("result", VArray items)] |}
        /\ sent_score Infinity sc
        /\ In (VObject [("name", VString "Top"); ("score", sc)]) items).
Proof.
  split.
  - apply (put_then_get_shows 3%N carol alice_bob "Carol" (num 70)).
    + reflexivity.
    + reflexivity.
    + cbn. lia.
    + apply get_leaderboard_run_answer.
  - apply (put_then_get_shows 3%N (submission "Top" Infinity) alice_bob
             "Top" Infinity).
    + reflexivity.
    + reflexivity.
    + cbn. lia.
    + apply get_leaderboard_run_answer.
Defined.

(** X5.  A submission that is accepted does not show on the next board
    when ten stored scores or more rank strictly above its score: after
    the PUT, every entry on the board of every run of GET has a score
    strictly above the submitted one, so the submitted entry is not among
    them. *)
Theorem put_then_get_hides (fresh : ObjectId) (body : value)
  (leaderboard : collection) (n : string) (s : number)
  (out : completion value * collection) :
  get body "name" = Normal (VString n) ->
  get body "score" = Normal (VNumber s) ->
  10 <= above s (find_without_id leaderboard) ->
  get_leaderboard (snd (put_leaderboard fresh body leaderboard)) out ->
  exists board,
    fst out = Normal (result_of (toArray board))
    /\ (forall e, In e board -> ltb s (score e) = true)
    /\ ~ In {| name := n; score := s |} board.
Proof.
  intros Hn Hs C H.
  rewrite (put_leaderboard_accepts fresh body leaderboard n s Hn Hs) in H.
  cbn [snd] in H. apply get_leaderboard_inv in H.
  destruct H as (sorted & A & ->).
  rewrite find_without_id_insertOne in A.
  assert (T : forall e, In e (limit 10 sorted) -> ltb s (score e) = true).
  { apply (ranked_out 10 (find_without_id leaderboard
                            ++ [{| name := n; score := s |}])); [|exact A].
    unfold above in *. rewrite filter_app, length_app. lia. }
  exists (limit 10 sorted). split; [reflexivity|]. split; [exact T|].
  intros I. apply T in I. cbn in I. rewrite ltb_irrefl in I. discriminate.
Qed.

(** X5, at Zed's 4 submitted to the store of fifteen, ten of whose scores
    are above 4. *)
Lemma put_then_get_hides_witness :
  exists board,
    fst (get_leaderboard_run (snd (put_leaderboard 16%N zed fifteen)))
    = Normal (result_of (toArray board))
    /\ (forall e, In e board -> ltb (num 4) (score e) = true)
    /\ ~ In {| name := "Zed"; score := num 4 |} board.
Proof.
  apply (put_then_get_hides 16%N zed fifteen "Zed" (num 4)).
  - reflexivity.
  - reflexivity.
  - cbn. lia.
  - apply get_leaderboard_run_answer.
Defined.

End Ranking.

(* ================================================================== *)
(** ** More on submissions *)

Module Submissions.
Import GetFacts PutFacts RankFacts.

(** Whatever is thrown, the reply is not a 200. *)
Lemma handleError_not_200 (e : exception) :
  statusCode (handleError e) <> num 200.
Proof.
  unfold handleError. cbn [statusCode].
  destruct (error_statusCode e) as [n|]; [|discriminate].
  destruct (ge n (num 400)) eqn:G; [|discriminate].
  intros ->. discriminate.
Qed.

(** X6.  PUT /leaderboard writes exactly when it replies 200.  For every
    body, [undefined] included: either the reply is a 200 and the
    collection is the old one followed by one new document, which carries
    the generated identifier; or the reply is not a 200 and the collection
    is the old one.  Stored documents are never changed, moved or
    removed. *)
Theorem put_leaderboard_writes_iff_200 (fresh : ObjectId) (body : value)
  (leaderboard : collection) :
  (statusCode (send (fst (put_leaderboard fresh body leaderboard))) = num 200
   /\ exists d, snd (put_leaderboard fresh body leaderboard)
                = leaderboard ++ [d]
                /\ _id d = fresh)
  \/ (statusCode (send (fst (put_leaderboard fresh body leaderboard)))
      <> num 200
      /\ snd (put_leaderboard fresh body leaderboard) = leaderboard).
Proof.
  pose proof (put_leaderboard_by_condition fresh body leaderboard) as H.
  destruct (invalid_body body) as [[|]|e].
  - right. rewrite H. split; [discriminate | reflexivity].
  - left. destruct H as (n & s & _ & _ & ->). split; [reflexivity|].
    now exists {| _id := fresh; entry := {| name := n; score := s |} |}.
  - right. rewrite H. split; [apply handleError_not_200 | reflexivity].
Qed.

(** X7.  PUT /leaderboard accepts a body exactly when it is an object
    whose own property [name] is a string and whose own property [score]
    is a number: primitives, arrays, [null] and [undefined] are never
    accepted, and nothing else about an object matters. *)
Theorem put_leaderboard_accepts_iff (fresh : ObjectId) (body : value)
  (leaderboard : collection) :
  fst (put_leaderboard fresh body leaderboard) = Normal posted
  <-> exists props n s,
        body = VObject props
        /\ lookup "name" props = Some (VString n)
        /\ lookup "score" props = Some (VNumber s).
Proof.
  split.
  - unfold put_leaderboard.
    destruct body as [| | | | |props|]; cbn; try discriminate.
    destruct (lookup "name" props) as [[| | | |n| |]|] eqn:Hn;
      try discriminate.
    destruct (lookup "score" props) as [[| | |s| | |]|] eqn:Hs;
      try discriminate.
    intros _. now exists props, n, s.
  - intros (props & n & s & -> & Hn & Hs).
    rewrite (put_leaderboard_accepts fresh (VObject props) leaderboard n s);
      [reflexivity | cbn; now rewrite Hn | cbn; now rewrite Hs].
Qed.

(** X8.  There is no check for duplicates: the same accepted body sent
    twice is stored twice, as the last two documents, and while the store
    held at most eight documents before, the items every later run of GET
    sends are the stored entries and the new entry twice. *)
Theorem put_twice_stored_twice (fresh1 fresh2 : ObjectId) (body : value)
  (leaderboard : collection) (n : string) (s : number)
  (out : completion value * collection) :
  get body "name" = Normal (VString n) ->
  get body "score" = Normal (VNumber s) ->
  List.length leaderboard <= 8 ->
  get_leaderboard
    (snd (put_leaderboard fresh2 body
            (snd (put_leaderboard fresh1 body leaderboard)))) out ->
  snd out = leaderboard ++ [doc fresh1 n s; doc fresh2 n s]
  /\ exists board items,
       send (fst out)
         = {| statusCode := num 200;
              payload := VObject [("result", VArray items)] |}
       /\ Forall2 sent_as board items
       /\ Permutation
            (map entry leaderboard
             ++ [ {| name := n; score := s |}; {| name := n; score := s |} ])
            board.
Proof.
  intros Hn Hs L H.
  rewrite (put_leaderboard_accepts fresh1 body leaderboard n s Hn Hs) in H.
  cbn [snd] in H.
  rewrite (put_leaderboard_accepts fresh2 body _ n s Hn Hs) in H.
  cbn [snd] in H. unfold insertOne in H. rewrite <- app_assoc in H.
  cbn [app] in H. apply get_leaderboard_sends in H.
  destruct H as (sorted & [P Srt] & -> & Sent). split; [reflexivity|].
  exists (limit 10 sorted),
    (map (fun e => VObject [("name", VString (name e));
                            ("score", json_number (score e))])
         (limit 10 sorted)).
  split; [exact Sent|]. split; [apply wire_sent_as|].
  rewrite map_app in P. cbn [map entry] in P.
  unfold limit. rewrite firstn_all2; [exact P|].
  rewrite <- (Permutation_length P), length_app, length_map. cbn. lia.
Qed.

(** X8, at Carol's 70 sent twice after Alice and Bob. *)
Lemma put_twice_stored_twice_witness :
  payload
    (send (fst (get_leaderboard_run
                  (snd (put_leaderboard 4%N carol
                          (snd (put_leaderboard 3%N carol alice_bob)))))))
  = VObject [("result", VArray
      [ VObject [("name", VString "Bob"); ("score", VNumber (num 90))];
        VObject [("name", VString "Carol"); ("score", VNumber (num 70))];
        VObject [("name", VString "Carol"); ("score", VNumber (num 70))];
        VObject [("name", VString "Alice"); ("score", VNumber (num 50))] ])]
  /\ snd (get_leaderboard_run
            (snd (put_leaderboard 4%N carol
                    (snd (put_leaderboard 3%N carol alice_bob)))))
     = alice_bob ++ [doc 3%N "Carol" (num 70); doc 4%N "Carol" (num 70)]
  /\ exists board items,
       send (fst (get_leaderboard_run
                    (snd (put_leaderboard 4%N carol
                            (snd (put_leaderboard 3%N carol alice_bob))))))
         = {| statusCode := num 200;
              payload := VObject [("result", VArray items)] |}
       /\ Forall2 sent_as board items
       /\ Permutation
            (map entry alice_bob
             ++ [ {| name := "Carol"; score := num 70 |};
                  {| name := "Carol"; score := num 70 |} ])
            board.
Proof.
  split; [reflexivity|].
  apply (put_twice_stored_twice 3%N 4%N carol alice_bob "Carol" (num 70)).
  - reflexivity.
  - reflexivity.
  - cbn. lia.
  - apply get_leaderboard_run_answer.
Defined.

End Submissions.

(* ================================================================== *)
(** ** More on the bootstrap *)

Module Startup.

(** Takes apart [pre ++ e :: post = t] for a trace [t] that is written
    out. *)
Ltac split_at :=
  repeat match goal with
  | H : ?pre ++ _ :: _ = _ |- _ =>
      let e := fresh "e" in
      let rest := fresh "pre" in
      let E := fresh "E" in
      destruct pre as [|e rest]; cbn in H;
      [ try discriminate H
      | try discriminate H; injection H as E H; subst e ]
  end.

(** X9.  Both routes are registered before the server listens, and the
    server listens once: whenever [Listen port] occurs in the trace of the
    process, the registrations of GET /leaderboard and PUT /leaderboard
    occurred before it, and no other [Listen] occurs before or after it. *)
Theorem routes_before_listen (connect : settlement)
  (address : option string) (pre post : list event) (port : Z) :
  trace (main connect address) = pre ++ Listen port :: post ->
  In (RouteRegistered "GET" "/leaderboard") pre
  /\ In (RouteRegistered "PUT" "/leaderboard") pre
  /\ forall p, ~ In (Listen p) pre /\ ~ In (Listen p) post.
Proof.
  intros H. symmetry in H. unfold trace, main in H.
  destruct connect; cbn in H; split_at.
  injection H as _ ->. cbn. intuition discriminate.
Qed.

(** X9, at a connection that is established. *)
Lemma routes_before_listen_witness :
  In (RouteRegistered "GET" "/leaderboard")
     [EnvLoaded; ClientCreated; ServerCreated; Connected;
      CollectionBound "example" "leaderboard";
      RouteRegistered "GET" "/leaderboard";
      RouteRegistered "PUT" "/leaderboard"]
  /\ In (RouteRegistered "PUT" "/leaderboard")
        [EnvLoaded; ClientCreated; ServerCreated; Connected;
         CollectionBound "example" "leaderboard";
         RouteRegistered "GET" "/leaderboard";
         RouteRegistered "PUT" "/leaderboard"]
  /\ forall p,
       ~ In (Listen p)
            [EnvLoaded; ClientCreated; ServerCreated; Connected;
             CollectionBound "example" "leaderboard";
             RouteRegistered "GET" "/leaderboard";
             RouteRegistered "PUT" "/leaderboard"]
       /\ ~ In (Listen p) [Logged (online_line (Some "http://[::1]:2000"))].
Proof.
  apply (routes_before_listen Resolves (Some "http://[::1]:2000") _ _ 2000).
  reflexivity.
Defined.



End Startup.
